(** * Project and plan handlers of the crowdfunding backend

    A shallow embedding of the Express controllers for projects and reward
    plans ([createProject], [checkMissingProjectFields], [createProjectPlan],
    [getProject], [updateProject]) and of the application shell of
    [src/app.js] (the catch-all 404 middleware and the centralized error
    handler), followed by the properties the specification states about
    them.

    JavaScript values are kept as the handlers see them: a request body is a
    tree of [JsVal], numbers are IEEE doubles ([float]), a missing property
    reads as [JUndefined].  The persistence layer is an in-memory store that
    the handlers thread explicitly; every awaited repository call may be
    rejected, which is how the [try]/[catch] blocks of the source become
    reachable. *)

From Corelib Require Import PrimFloat.
From Stdlib Require Import ZArith List String Ascii Bool Lia.
From Stdlib Require Uint63.
From Stdlib Require Import Sorting.Sorted Sorting.Permutation.
Import ListNotations.

Local Open Scope string_scope.
Local Open Scope Z_scope.

(* ================================================================== *)
(** ** JavaScript values *)

Module Js.

#[warnings="-register-all"]
Inductive JsVal : Type :=
| JUndefined
| JNull
| JBool (b : bool)
| JNum (f : float)
| JStr (s : string)
| JArr (elems : list JsVal)
| JObj (props : list (string * JsVal)).

(** An [Error] object as the handlers read it: the two properties [status]
    and [message], each [JUndefined] when it was never set. *)
Record JsError : Type := mkError { status : JsVal; message : JsVal }.

(** [new Error(msg)] *)
Definition Error (msg : string) : JsError :=
  {| status := JUndefined; message := JStr msg |}.

(** The [TypeError] raised by a property read on [undefined] or [null]; the
    text of its message is the engine's. *)
Definition TypeError (what : string) : JsError :=
  Error ("Cannot read properties of undefined or null (reading '" ++ what ++ "')").

Inductive Result (A : Type) : Type :=
| Ok (a : A)
| Throw (e : JsError).
Arguments Ok {A} a.
Arguments Throw {A} e.

(** ToBoolean: the falsy values are [undefined], [null], [false], [+0], [-0],
    [NaN] and the empty string. *)
Definition truthy (v : JsVal) : bool :=
  match v with
  | JUndefined | JNull => false
  | JBool b => b
  | JNum f => negb (PrimFloat.is_zero f || PrimFloat.is_nan f)
  | JStr s => match s with EmptyString => false | String _ _ => true end
  | JArr _ | JObj _ => true
  end.

(** [a || b] *)
Definition or_else (a b : JsVal) : JsVal := if truthy a then a else b.

Definition nullish (v : JsVal) : bool :=
  match v with JUndefined | JNull => true | _ => false end.

(** [a === b].  Two arrays or objects are equal only when they are the same
    reference; the comparisons of the source have a primitive on one side. *)
Definition strict_eq (a b : JsVal) : bool :=
  match a, b with
  | JUndefined, JUndefined => true
  | JNull, JNull => true
  | JBool x, JBool y => Bool.eqb x y
  | JNum x, JNum y => (x =? y)%float
  | JStr x, JStr y => String.eqb x y
  | _, _ => false
  end.

(** Own properties of an object literal or of a parsed JSON object. *)
Fixpoint assoc (k : string) (props : list (string * JsVal)) : JsVal :=
  match props with
  | [] => JUndefined
  | (k', v) :: rest => if String.eqb k k' then v else assoc k rest
  end.

Definition has_key (k : string) (props : list (string * JsVal)) : bool :=
  existsb (fun kv => String.eqb k (fst kv)) props.

(** [v[k]] for [v] that is neither [undefined] nor [null], and for the
    property names the handlers read (none of them is an array index or a
    built-in of String, Number, Boolean or Array). *)
Definition prop (v : JsVal) (k : string) : JsVal :=
  match v with
  | JObj props => assoc k props
  | _ => JUndefined
  end.

(** [v.k]: a [TypeError] on [undefined] and [null]. *)
Definition get_prop (v : JsVal) (k : string) : Result JsVal :=
  if nullish v then Throw (TypeError k) else Ok (prop v k).

(** The parts of the engine that the handlers call and that are not
    transcribed here: the numeric value of a string literal, the string an
    array or object converts to (its [toString]), and the token check of the
    [jsonwebtoken] package against the configured secret ([None] when
    [jwt.verify] throws, the decoded payload otherwise). *)
Class Runtime : Type := {
  StringToNumber : string -> float;
  ObjectToString : JsVal -> string;
  jwt_verify : string -> option JsVal
}.

(** [Number(v)] *)
Definition Number `{Runtime} (v : JsVal) : float :=
  match v with
  | JUndefined => nan
  | JNull => 0%float
  | JBool true => 1%float
  | JBool false => 0%float
  | JNum f => f
  | JStr s => StringToNumber s
  | JArr _ | JObj _ => StringToNumber (ObjectToString v)
  end.

(** [Array.isArray(v)] *)
Definition isArray (v : JsVal) : bool :=
  match v with JArr _ => true | _ => false end.

(** An integer key as a JavaScript number (keys stay far below 2^53). *)
Definition num_of_Z (z : Z) : float :=
  match z with
  | Z0 => 0%float
  | Zpos _ => PrimFloat.of_uint63 (Uint63.of_Z z)
  | Zneg p => (- PrimFloat.of_uint63 (Uint63.of_Z (Zpos p)))%float
  end.

(* ------------------------------------------------------------------ *)
(** *** String helpers: [parseInt], [split], [join] *)

Definition is_space (c : ascii) : bool :=
  let n := nat_of_ascii c in
  (Nat.eqb n 32 || (Nat.leb 9 n && Nat.leb n 13))%bool.

Definition digit_of (c : ascii) : option Z :=
  let n := Z.of_nat (nat_of_ascii c) in
  if (48 <=? n) && (n <=? 57) then Some (n - 48) else None.

Fixpoint skip_spaces (s : string) : string :=
  match s with
  | String c rest => if is_space c then skip_spaces rest else s
  | EmptyString => s
  end.

(** The longest prefix of decimal digits, read most significant first. *)
Fixpoint read_digits (acc : option Z) (s : string) : option Z :=
  match s with
  | String c rest =>
      match digit_of c with
      | Some d =>
          read_digits (Some (10 * match acc with Some a => a | None => 0 end + d)) rest
      | None => acc
      end
  | EmptyString => acc
  end.

(** [parseInt(s, 10)]: leading white space is skipped, one sign is read, then
    the longest run of digits; [None] stands for [NaN].  White space here is
    the ASCII part of the language's set. *)
Definition parseInt (s : string) : option Z :=
  match skip_spaces s with
  | String "-" rest => option_map Z.opp (read_digits None rest)
  | String "+" rest => read_digits None rest
  | t => read_digits None t
  end.

(** [parseInt(v, 10)] of a route parameter that may be missing. *)
Definition parseInt_param (v : option string) : option Z :=
  match v with
  | Some s => parseInt s
  | None => None
  end.

(** [s.split(" ")] *)
Fixpoint split_space_aux (cur : string) (s : string) : list string :=
  match s with
  | EmptyString => [cur]
  | String c rest =>
      if Ascii.eqb c " " then cur :: split_space_aux "" rest
      else split_space_aux (cur ++ String c "") rest
  end.

Definition split_space (s : string) : list string := split_space_aux "" s.

(** [xs.join(sep)] *)
Fixpoint join (sep : string) (xs : list string) : string :=
  match xs with
  | [] => ""
  | [x] => x
  | x :: rest => x ++ sep ++ join sep rest
  end.

(** [xs.sort(cmp)] for a comparator that is a consistent ordering: the
    result is the stable sort, here by insertion from the right. *)
Section Sort.
Context {A : Type} (cmp : A -> A -> Z).

Fixpoint insert (x : A) (l : list A) : list A :=
  match l with
  | [] => [x]
  | y :: rest => if cmp x y <=? 0 then x :: l else y :: insert x rest
  end.

Definition sort (l : list A) : list A := fold_right insert [] l.
End Sort.

End Js.
Import Js.

(* ================================================================== *)
(** ** Persistence layer *)

(** Modelled from the spec: the entity declarations (the [entities]
    directory) are not among the analysed files.  The rows below follow the
    spec's data model ("User: identity record", "Category: lookup entity
    {id, name}", "Project: {id, title, summary, category, total_amount,
    start_time, end_time, cover, full_content, project_team, faq, owner}",
    "ProjectPlan: {plan_id, plan_name, amount, quantity, feedback,
    feedback_img, delivery_date, owning Project reference}") and the
    properties the handlers read: the [user_id] column that [updateProject]
    filters on beside the loaded [user] relation, and the numeric [plan_id]
    that [getProject] subtracts. *)
Module Users.
Record row : Type := { id : string; profile : JsVal }.
End Users.

Module Categories.
Record row : Type := { id : JsVal; name : JsVal }.
End Categories.

Module Projects.
Record row : Type := {
  id : Z;
  title : JsVal;
  summary : JsVal;
  category : Categories.row;
  total_amount : JsVal;
  start_time : JsVal;
  end_time : JsVal;
  cover : JsVal;
  full_content : JsVal;
  project_team : JsVal;
  faq : JsVal;
  user : Users.row;
  user_id : string
}.

(** The columns of a project as a plain object (no relation loaded). *)
Definition to_js (p : row) : JsVal :=
  JObj [("id", JNum (num_of_Z (id p)));
        ("title", title p);
        ("summary", summary p);
        ("total_amount", total_amount p);
        ("start_time", start_time p);
        ("end_time", end_time p);
        ("cover", cover p);
        ("full_content", full_content p);
        ("project_team", project_team p);
        ("faq", faq p);
        ("user_id", JStr (user_id p))].
End Projects.

Module ProjectPlans.
(** What a client supplies and reads of a plan. *)
Record fields : Type := {
  plan_name : JsVal;
  amount : JsVal;
  quantity : JsVal;
  feedback : JsVal;
  feedback_img : JsVal;
  delivery_date : JsVal
}.

(** [planRepo.create({ ..., project })]: an entity that has no identifier
    until it is saved. *)
Record entity : Type := { draft : fields; project : Projects.row }.

(** A stored plan: its generated identifier, its fields and the identifier
    of the project that owns it. *)
Record row : Type := { plan_id : Z; data : fields; project_id : Z }.

Definition to_js (e : entity) (assigned : Z) : JsVal :=
  JObj [("plan_name", plan_name (draft e));
        ("amount", amount (draft e));
        ("quantity", quantity (draft e));
        ("feedback", feedback (draft e));
        ("feedback_img", feedback_img (draft e));
        ("delivery_date", delivery_date (draft e));
        ("project", Projects.to_js (project e));
        ("plan_id", JNum (num_of_Z assigned))].
End ProjectPlans.

Module Store.

Record DB : Type := {
  users : list Users.row;
  categories : list Categories.row;
  projects : list Projects.row;
  projectPlans : list ProjectPlans.row;
  next_project_id : Z;
  next_plan_id : Z
}.

(** For each repository call of the handlers, the error it is rejected with,
    if it is rejected.  A rejected call leaves the store as it was. *)
Record Faults : Type := {
  users_find : option JsError;
  categories_find : option JsError;
  projects_find : option JsError;
  projects_save : option JsError;
  plans_delete : option JsError;
  plans_save : option JsError
}.

Definition no_faults : Faults :=
  {| users_find := None; categories_find := None; projects_find := None;
     projects_save := None; plans_delete := None; plans_save := None |}.

(** Handler code: reads and writes the store, may throw. *)
Definition M (A : Type) : Type := DB -> Result A * DB.

Definition ret {A} (a : A) : M A := fun db => (Ok a, db).

Definition throw {A} (e : JsError) : M A := fun db => (Throw e, db).

Definition bind {A B} (m : M A) (k : A -> M B) : M B :=
  fun db =>
    match m db with
    | (Ok a, db') => k a db'
    | (Throw e, db') => (Throw e, db')
    end.

Definition lift {A} (r : Result A) : M A := fun db => (r, db).

(** [await op]: the promise is rejected with the scheduled fault, or the
    operation runs. *)
Definition await {A} (fault : option JsError) (op : DB -> A * DB) : M A :=
  fun db =>
    match fault with
    | Some e => (Throw e, db)
    | None => let (a, db') := op db in (Ok a, db')
    end.

(** [try { body } catch (err) { handler }] where the handler does not throw. *)
Definition try_catch {A} (body : M A) (handler : JsError -> A) : DB -> A * DB :=
  fun db =>
    match body db with
    | (Ok a, db') => (a, db')
    | (Throw e, db') => (handler e, db')
    end.

(** [xs.map(f)] for a callback that may throw. *)
Fixpoint map_result {A B} (f : A -> Result B) (xs : list A) : Result (list B) :=
  match xs with
  | [] => Ok []
  | x :: rest =>
      match f x with
      | Throw e => Throw e
      | Ok b =>
          match map_result f rest with
          | Throw e => Throw e
          | Ok bs => Ok (b :: bs)
          end
      end
  end.

(* ------------------------------------------------------------------ *)
(** *** Repository operations *)

(** A numeric key that is [NaN] equals no stored identifier. *)
Definition id_is (key : option Z) (n : Z) : bool :=
  match key with
  | Some k => n =? k
  | None => false
  end.

(** [userRepo.findOneBy({ id })]: user identifiers are strings. *)
Definition users_findOneBy (key : JsVal) (db : DB) : option Users.row * DB :=
  (find (fun u => match key with
                  | JStr s => String.eqb (Users.id u) s
                  | _ => false
                  end) (users db), db).

(** [categoryRepo.findOneBy({ id })] *)
Definition categories_findOneBy (key : JsVal) (db : DB) : option Categories.row * DB :=
  (find (fun c => strict_eq (Categories.id c) key) (categories db), db).

(** [projectRepo.findOneBy({ id })] *)
Definition projects_findOneBy (key : option Z) (db : DB) : option Projects.row * DB :=
  (find (fun p => id_is key (Projects.id p)) (projects db), db).

(** [projectRepo.findOne({ where: { id, user_id }, relations: ["user", "category"] })] *)
Definition projects_findOne_owned (key : option Z) (owner : string) (db : DB)
  : option Projects.row * DB :=
  (find (fun p => id_is key (Projects.id p) && String.eqb (Projects.user_id p) owner)
        (projects db), db).

Definition plans_of (key : option Z) (db : DB) : list ProjectPlans.row :=
  filter (fun pl => id_is key (ProjectPlans.project_id pl)) (projectPlans db).

(** A project entity as [findOne] returns it for
    [relations: ["projectPlans"]]: the columns, the plans of the project,
    and a [category] property that reads as [undefined] because that
    relation was not asked for. *)
Record LoadedProject : Type := {
  entity : Projects.row;
  category_read : JsVal;
  projectPlans_read : list ProjectPlans.row
}.

(** [projectRepository.findOne({ where: { id }, relations: ["projectPlans"] })] *)
Definition projects_findOne_with_plans (key : option Z) (db : DB)
  : option LoadedProject * DB :=
  (option_map (fun p => {| entity := p;
                           category_read := JUndefined;
                           projectPlans_read := plans_of key db |})
              (find (fun p => id_is key (Projects.id p)) (projects db)), db).

Definition set_projects (ps : list Projects.row) (n : Z) (db : DB) : DB :=
  {| users := users db; categories := categories db; projects := ps;
     projectPlans := projectPlans db; next_project_id := n;
     next_plan_id := next_plan_id db |}.

Definition set_plans (pls : list ProjectPlans.row) (n : Z) (db : DB) : DB :=
  {| users := users db; categories := categories db; projects := projects db;
     projectPlans := pls; next_project_id := next_project_id db;
     next_plan_id := n |}.

(** [projectRepo.save(newProject)] of an entity that has no identifier yet:
    the store generates one. *)
Definition projects_insert (mk : Z -> Projects.row) (db : DB) : Projects.row * DB :=
  let p := mk (next_project_id db) in
  (p, set_projects (projects db ++ [p]) (next_project_id db + 1) db).

(** The project table after the row with the identifier of [p'] has been
    rewritten to [p']. *)
Definition rewritten (p' : Projects.row) (rows : list Projects.row) : list Projects.row :=
  map (fun r => if Projects.id r =? Projects.id p' then p' else r) rows.

(** [projectRepo.save(project)] of a loaded entity: the row with its
    identifier is rewritten. *)
Definition projects_update (p : Projects.row) (db : DB) : Projects.row * DB :=
  (p, set_projects (rewritten p (projects db)) (next_project_id db) db).

(** [planRepo.delete({ project: { id } })] *)
Definition plans_delete_of (key : option Z) (db : DB) : unit * DB :=
  (tt, set_plans
         (filter (fun pl => negb (id_is key (ProjectPlans.project_id pl))) (projectPlans db))
         (next_plan_id db) db).

Fixpoint stored_from (n : Z) (es : list ProjectPlans.entity) : list ProjectPlans.row :=
  match es with
  | [] => []
  | e :: rest =>
      {| ProjectPlans.plan_id := n;
         ProjectPlans.data := ProjectPlans.draft e;
         ProjectPlans.project_id := Projects.id (ProjectPlans.project e) |}
      :: stored_from (n + 1) rest
  end.

(** [planRepo.save(entities)]: every entity is inserted, with consecutive
    fresh identifiers; the rows are returned. *)
Definition plans_insert (es : list ProjectPlans.entity) (db : DB)
  : list ProjectPlans.row * DB :=
  let rows := stored_from (next_plan_id db) es in
  (rows, set_plans (projectPlans db ++ rows)
                   (next_plan_id db + Z.of_nat (List.length es)) db).

End Store.
Import Store.

Declare Scope handler_scope.
Notation "x <- c ;; k" := (bind c (fun x => k))
  (at level 61, c at next level, right associativity) : handler_scope.
Notation "c ;;; k" := (bind c (fun _ => k))
  (at level 61, right associativity) : handler_scope.

(* ================================================================== *)
(** ** HTTP shell *)

Module Http.

Record Request : Type := {
  method : string;
  path : string;
  params : list (string * string);
  authorization : option string;      (* req.headers.authorization *)
  body : JsVal;                       (* req.body *)
  user : option Users.row;            (* req.user, set by the auth middleware *)
  log : bool                          (* whether req.log was attached *)
}.

Definition param (req : Request) (k : string) : option string :=
  option_map snd (find (fun kv => String.eqb k (fst kv)) (params req)).

Record Response : Type := { code : JsVal; payload : JsVal }.

(** [res.status(n).json(v)] *)
Definition json (n : float) (v : JsVal) : Response :=
  {| code := JNum n; payload := v |}.

(** What a handler does with a request: it answers, or it hands an error to
    [next]. *)
Inductive Outcome : Type :=
| Responded (r : Response)
| Forwarded (e : JsError).

(** Modelled from the spec: [utils/appError] is not among the analysed
    files; "handlers ... forward a tagged error (status + message)".  The
    third argument that some call sites pass is not used. *)
Definition appError (st : float) (msg : JsVal) : JsError :=
  {| status := JNum st; message := msg |}.

End Http.
Import Http.

(* ================================================================== *)
(** ** Project controllers *)

Local Open Scope handler_scope.

Definition requiredFields : list string :=
  ["title"; "summary"; "category_id"; "total_amount"; "start_time";
   "end_time"; "cover"; "full_content"; "project_team"; "faq"].

(** [requiredFields.filter(field => !body[field])] *)
Definition checkMissingProjectFields (body : JsVal) : Result (list string) :=
  if nullish body then Throw (TypeError "title")
  else Ok (filter (fun field => negb (truthy (prop body field))) requiredFields).

(** [const { a, b, ... } = v]: throws on [undefined] and [null]. *)
Definition destructurable (v : JsVal) (first : string) : Result unit :=
  if nullish v then Throw (TypeError first) else Ok tt.

(** [req.headers.authorization?.split(" ")[1]] *)
Definition bearer_token (header : option string) : JsVal :=
  match header with
  | None => JUndefined
  | Some h =>
      match nth_error (split_space h) 1 with
      | Some t => JStr t
      | None => JUndefined
      end
  end.

Definition missing_fields_response (missingFields : list string) : Response :=
  json 400 (JObj [("status", JBool false);
                  ("message", JStr ("缺少必要欄位: " ++ join ", " missingFields))]).

Definition createProject `{Runtime} (fl : Faults) (req : Request) : DB -> Outcome * DB :=
  try_catch
    (lift (destructurable (body req) "title") ;;;
     missingFields <- lift (checkMissingProjectFields (body req)) ;;
     if (0 <? Z.of_nat (List.length missingFields)) then
       ret (Responded (missing_fields_response missingFields))
     else
       let token := bearer_token (authorization req) in
       match token with
       | JStr (String c t) =>        (* [!token] is false: a non-empty string *)
           match jwt_verify (String c t) with
           | None =>
               ret (Responded (json 401 (JObj [("status", JBool false);
                                                ("message", JStr "無效的 token")])))
           | Some decoded =>
               user <- await (users_find fl) (users_findOneBy (prop decoded "id")) ;;
               match user with
               | None => ret (Forwarded (appError 400 (JStr "找不到對應的使用者")))
               | Some user =>
                   existingCategory <-
                     await (categories_find fl)
                           (categories_findOneBy (prop (body req) "category_id")) ;;
                   match existingCategory with
                   | None => ret (Forwarded (appError 400 (JStr "無效的 category")))
                   | Some existingCategory =>
                       savedProject <-
                         await (projects_save fl)
                           (projects_insert (fun fresh =>
                              {| Projects.id := fresh;
                                 Projects.title := prop (body req) "title";
                                 Projects.summary := prop (body req) "summary";
                                 Projects.category := existingCategory;
                                 Projects.total_amount := prop (body req) "total_amount";
                                 Projects.start_time := prop (body req) "start_time";
                                 Projects.end_time := prop (body req) "end_time";
                                 Projects.cover := prop (body req) "cover";
                                 Projects.full_content := prop (body req) "full_content";
                                 Projects.project_team := prop (body req) "project_team";
                                 Projects.faq := prop (body req) "faq";
                                 Projects.user := user;
                                 Projects.user_id := Users.id user |})) ;;
                       ret (Responded
                              (json 200
                                 (JObj [("status", JBool true);
                                        ("message", JStr "專案建立成功");
                                        ("data",
                                         JObj [("project_id",
                                                JNum (num_of_Z (Projects.id savedProject)))])])))
                   end
               end
           end
       | _ =>
           ret (Responded (json 401 (JObj [("status", JBool false);
                                            ("message", JStr "未提供有效的 token")])))
       end)
    (fun err =>
       Forwarded (appError 400 (or_else (message err) (JStr "欄位填寫不完整或有誤")))).

(** The six client-supplied properties of a plan object, as read. *)
Definition plan_fields (plan : JsVal) : ProjectPlans.fields :=
  {| ProjectPlans.plan_name := prop plan "plan_name";
     ProjectPlans.amount := prop plan "amount";
     ProjectPlans.quantity := prop plan "quantity";
     ProjectPlans.feedback := prop plan "feedback";
     ProjectPlans.feedback_img := prop plan "feedback_img";
     ProjectPlans.delivery_date := prop plan "delivery_date" |}.

Definition createProjectPlan (fl : Faults) (req : Request) : DB -> Outcome * DB :=
  try_catch
    (let projectId := parseInt_param (param req "id") in
     plans <- lift (get_prop (body req) "plans") ;;
     lift (destructurable plans "plan_name") ;;;
     project <- await (projects_find fl) (projects_findOneBy projectId) ;;
     match project with
     | None =>
         ret (Responded (json 404 (JObj [("status", JBool false);
                                          ("message", JStr "找不到專案")])))
     | Some project =>
         let newPlan := {| ProjectPlans.draft := plan_fields plans;
                           ProjectPlans.project := project |} in
         saved <- await (plans_save fl) (plans_insert [newPlan]) ;;
         ret (Responded
                (json 201
                   (JObj [("status", JBool true);
                          ("message", JStr "回饋方案建立成功");
                          ("data",
                           match saved with
                           | r :: _ => ProjectPlans.to_js newPlan (ProjectPlans.plan_id r)
                           | [] => JUndefined
                           end)])))
     end)
    (fun err => Forwarded (appError 500 (or_else (message err) (JStr "回饋方案建立錯誤")))).

(** The comparator [(a, b) => a.plan_id - b.plan_id]. *)
Definition by_plan_id (a b : ProjectPlans.row) : Z :=
  ProjectPlans.plan_id a - ProjectPlans.plan_id b.

(** The object a plan is shaped into for display. *)
Definition plan_view (plan : ProjectPlans.row) : JsVal :=
  JObj [("plan_name", ProjectPlans.plan_name (ProjectPlans.data plan));
        ("amount", ProjectPlans.amount (ProjectPlans.data plan));
        ("quantity", ProjectPlans.quantity (ProjectPlans.data plan));
        ("feedback", ProjectPlans.feedback (ProjectPlans.data plan));
        ("feedback_img", ProjectPlans.feedback_img (ProjectPlans.data plan));
        ("delivery_date", ProjectPlans.delivery_date (ProjectPlans.data plan))].

(** [responseData] of [getProject]. *)
Definition project_view (project : LoadedProject) (plans : list JsVal) : JsVal :=
  JObj [("title", Projects.title (entity project));
        ("summary", Projects.summary (entity project));
        ("category", category_read project);
        ("total_amount", Projects.total_amount (entity project));
        ("start_time", Projects.start_time (entity project));
        ("end_time", Projects.end_time (entity project));
        ("cover", Projects.cover (entity project));
        ("full_content", Projects.full_content (entity project));
        ("project_team", Projects.project_team (entity project));
        ("faq", or_else (Projects.faq (entity project)) (JArr []));
        ("plans", JArr plans)].

Definition getProject (fl : Faults) (req : Request) : DB -> Outcome * DB :=
  let projectId := parseInt_param (param req "project_id") in
  try_catch
    (project <- await (projects_find fl) (projects_findOne_with_plans projectId) ;;
     match project with
     | None => ret (Forwarded (appError 404 (JStr "無此專案")))
     | Some project =>
         let sortedPlans := sort by_plan_id (projectPlans_read project) in
         let plans := map plan_view sortedPlans in
         ret (Responded (json 200 (JObj [("status", JBool true);
                                          ("data", project_view project plans)])))
     end)
    (fun error => Forwarded error).

(** The assignments [if (x !== undefined) project.x = x], in source order. *)
Definition assign (incoming current : JsVal) : JsVal :=
  match incoming with
  | JUndefined => current
  | _ => incoming
  end.

Definition apply_fields `{Runtime} (body : JsVal) (project : Projects.row) : Projects.row :=
  {| Projects.id := Projects.id project;
     Projects.title := assign (prop body "title") (Projects.title project);
     Projects.summary := assign (prop body "summary") (Projects.summary project);
     Projects.category := Projects.category project;
     Projects.total_amount :=
       match prop body "total_amount" with
       | JUndefined => Projects.total_amount project
       | total_amount => JNum (Number total_amount)
       end;
     Projects.start_time := assign (prop body "start_time") (Projects.start_time project);
     Projects.end_time := assign (prop body "end_time") (Projects.end_time project);
     Projects.cover := assign (prop body "cover") (Projects.cover project);
     Projects.full_content :=
       assign (prop body "full_content") (Projects.full_content project);
     Projects.project_team :=
       assign (prop body "project_team") (Projects.project_team project);
     Projects.faq := assign (prop body "faq") (Projects.faq project);
     Projects.user := Projects.user project;
     Projects.user_id := Projects.user_id project |}.

(** The callback of [req.body.plans.map(...)]: one new plan entity per
    element; reading a property of a [null] element throws. *)
Definition new_plan `{Runtime} (project : Projects.row) (plan : JsVal)
  : Result ProjectPlans.entity :=
  if nullish plan then Throw (TypeError "plan_name")
  else
    Ok {| ProjectPlans.draft :=
            {| ProjectPlans.plan_name := prop plan "plan_name";
               ProjectPlans.amount := JNum (Number (prop plan "amount"));
               ProjectPlans.quantity :=
                 if truthy (prop plan "quantity")
                 then JNum (Number (prop plan "quantity"))
                 else JNum 0%float;
               ProjectPlans.feedback := prop plan "feedback";
               ProjectPlans.feedback_img := prop plan "feedback_img";
               ProjectPlans.delivery_date := prop plan "delivery_date" |};
          ProjectPlans.project := project |}.

Definition updateProject `{Runtime} (fl : Faults) (req : Request) : DB -> Outcome * DB :=
  try_catch
    (let projectId := parseInt_param (param req "project_id") in
     user <- lift (match user req with
                   | Some u => Ok u
                   | None => Throw (TypeError "id")
                   end) ;;
     project <- await (projects_find fl)
                      (projects_findOne_owned projectId (Users.id user)) ;;
     match project with
     | None => ret (Forwarded (appError 400 (JStr "找不到提案")))
     | Some project =>
         if negb (String.eqb (Users.id (Projects.user project)) (Users.id user)) then
           ret (Forwarded (appError 403 (JStr "你沒有修改此提案的權限")))
         else
           lift (destructurable (body req) "title") ;;;
           let project := apply_fields (body req) project in
           match prop (body req) "plans" with
           | JArr plans =>
               await (plans_delete fl) (plans_delete_of projectId) ;;;
               newPlans <- lift (map_result (new_plan project) plans) ;;
               await (plans_save fl) (plans_insert newPlans) ;;;
               ret tt
           | _ => ret tt
           end ;;;
           updateProject <- await (projects_save fl) (projects_update project) ;;
           ret (Responded
                  (json 200
                     (JObj [("status", JBool true);
                            ("data",
                             JObj [("project_id",
                                    JNum (num_of_Z (Projects.id updateProject)))])])))
     end)
    (fun error => Forwarded error).

(* ================================================================== *)
(** ** The application of [src/app.js] *)

Module App.

(** What one middleware does with a request: it calls [next()], possibly
    after changing the request; it ends the response; or it calls
    [next(err)]. *)
Inductive Step : Type :=
| Next (req : Request)
| Done (r : Response)
| Fail (e : JsError) (req : Request).

Definition Middleware : Type := Request -> Step.

(** The middleware of other packages and the routers whose files are not
    analysed here, each with the behaviour it has on a request, and the path
    matcher of the router. *)
Record Stack : Type := {
  express_json : Middleware;
  express_urlencoded : Middleware;
  express_static : Middleware;
  usersRouter : Middleware;          (* app.use("/api/v1/users", usersRouter) *)
  projectRouter : Middleware;        (* app.use("/api/v1/projects", projectRouter) *)
  uploadRouter : Middleware;         (* app.use("/api/v1/uploads", uploadRouter) *)
  path_matches : string -> string -> bool
}.

(** [cors()] with its default options: a preflight request (method OPTIONS)
    is answered with 204 and an empty body and is not passed on; any other
    request continues. *)
Definition cors : Middleware :=
  fun req =>
    if String.eqb (method req) "OPTIONS"
    then Done {| code := JNum 204; payload := JUndefined |}
    else Next req.

(** [pinoHttp({ logger, ... })]: attaches [req.log]. *)
Definition pinoHttp : Middleware :=
  fun req =>
    Next {| method := method req; path := path req; params := params req;
            authorization := authorization req; body := body req;
            user := user req; log := true |}.

(** [app.get("/healthcheck", ...)]: a route for GET, which also serves HEAD. *)
Definition healthcheck (st : Stack) : Middleware :=
  fun req =>
    if (String.eqb (method req) "GET" || String.eqb (method req) "HEAD")
       && path_matches st "/healthcheck" (path req)
    then Done {| code := JNum 200; payload := JStr "OK" |}
    else Next req.

Definition not_found_response : Response :=
  json 404 (JObj [("status", JStr "error"); ("message", JStr "無此路由")]).

(** The middleware registered after every route. *)
Definition notFound : Middleware := fun _ => Done not_found_response.

(** The status codes a response can carry: the integers from 100 to 999. *)
Definition status_codes : list Z := map Z.of_nat (seq 100 900).

(** [res.status(code)] followed by the sending of the response, as the
    framework documents it: the status code must be an integer from 100 to
    999, and any other value (a number out of that range such as 42, a
    boolean, a string such as ['fail']) makes the call throw.  Older
    versions of the framework leave the check to the HTTP module, which
    truncates the value to an integer first; the two agree on every
    integer and on every value that converts to no number. *)
Definition res_status (code : JsVal) : Result JsVal :=
  match code with
  | JNum f =>
      if existsb (fun z => PrimFloat.eqb f (num_of_Z z)) status_codes
      then Ok code
      else Throw (Error "Invalid status code")
  | _ => Throw (Error "Invalid status code")
  end.

(** The error-handling middleware.  [err] is [None] for a falsy argument;
    reading [req.log.error] throws when no logger was attached, and so does
    [res.status(statusCode).json(...)] when the error carries a status that
    is no status code. *)
Definition errorHandler (err : option JsError) (req : Request) : Result Response :=
  let err := match err with
             | None => Error "未知錯誤"
             | Some e => e
             end in
  if negb (log req) then Throw (TypeError "error")
  else
    let statusCode := or_else (status err) (JNum 500) in
    match res_status statusCode with
    | Throw e => Throw e
    | Ok accepted =>
        Ok {| code := accepted;
              payload :=
                JObj [("status",
                       JStr (if strict_eq statusCode (JNum 500) then "error" else "failed"));
                      ("message", or_else (message err) (JStr "伺服器錯誤"))] |}
    end.

(** The middleware registered before the catch-all, in source order. *)
Definition before_catch_all (st : Stack) : list Middleware :=
  [cors; express_json st; express_urlencoded st; pinoHttp; express_static st;
   usersRouter st; projectRouter st; uploadRouter st; healthcheck st].

Fixpoint run (mws : list Middleware) (req : Request) : Step :=
  match mws with
  | [] => Next req
  | mw :: rest =>
      match mw req with
      | Next req' => run rest req'
      | Done r => Done r
      | Fail e req' => Fail e req'
      end
  end.

(** What the client is sent: a response of the application, or whatever the
    framework's own final handler produces when the error handler itself
    throws ([Some e]) or when no middleware answers ([None]). *)
Inductive Served : Type :=
| Sent (r : Response)
| FinalHandler (e : option JsError).

Definition app (st : Stack) (req : Request) : Served :=
  match run (before_catch_all st ++ [notFound]) req with
  | Done r => Sent r
  | Next _ => FinalHandler None
  | Fail e req' =>
      match errorHandler (Some e) req' with
      | Ok r => Sent r
      | Throw e' => FinalHandler (Some e')
      end
  end.

(** What the client of a handler is sent once a forwarded error has gone
    through the error handler. *)
Definition served (o : Outcome) (req : Request) : Served :=
  match o with
  | Responded r => Sent r
  | Forwarded e =>
      match errorHandler (Some e) req with
      | Ok r => Sent r
      | Throw e' => FinalHandler (Some e')
      end
  end.

End App.
Import App.

(* ================================================================== *)
(** ** Vocabulary of the properties *)

(** The key is an own property of the body object. *)
Definition body_has (b : JsVal) (k : string) : bool :=
  match b with
  | JObj props => has_key k props
  | _ => false
  end.

(** The property names of an object, in order. *)
Definition keys (v : JsVal) : list string :=
  match v with
  | JObj props => map fst props
  | _ => []
  end.

(** The required fields whose value in the body is falsy; a field that is
    absent reads as [undefined] and is among them. *)
Definition falsy_fields (b : JsVal) : list string :=
  filter (fun field => negb (truthy (prop b field))) requiredFields.

(** Project identifiers are a primary key. *)
Definition primary_keys (db : DB) : Prop :=
  NoDup (map Projects.id (projects db)).

(** The nine scalar fields that [updateProject] may assign. *)
Inductive Field : Type :=
| Title | Summary | TotalAmount | StartTime | EndTime
| Cover | FullContent | ProjectTeam | Faq.

Definition key (F : Field) : string :=
  match F with
  | Title => "title"
  | Summary => "summary"
  | TotalAmount => "total_amount"
  | StartTime => "start_time"
  | EndTime => "end_time"
  | Cover => "cover"
  | FullContent => "full_content"
  | ProjectTeam => "project_team"
  | Faq => "faq"
  end.

Definition field (F : Field) (p : Projects.row) : JsVal :=
  match F with
  | Title => Projects.title p
  | Summary => Projects.summary p
  | TotalAmount => Projects.total_amount p
  | StartTime => Projects.start_time p
  | EndTime => Projects.end_time p
  | Cover => Projects.cover p
  | FullContent => Projects.full_content p
  | ProjectTeam => Projects.project_team p
  | Faq => Projects.faq p
  end.

(** The value a field holds once the body's value [v] has been assigned. *)
Definition assigned `{Runtime} (F : Field) (v : JsVal) : JsVal :=
  match F with
  | TotalAmount => JNum (Number v)
  | _ => v
  end.

(** The project with the given identifier, as stored. *)
Definition project_by_id (n : Z) (db : DB) : option Projects.row :=
  find (fun p => Projects.id p =? n) (projects db).

(** Ascending order of plan identifiers. *)
Definition plan_le (a b : ProjectPlans.row) : Prop :=
  ProjectPlans.plan_id a <= ProjectPlans.plan_id b.

(** The display fields of a plan. *)
Definition display_fields : list string :=
  ["plan_name"; "amount"; "quantity"; "feedback"; "feedback_img"; "delivery_date"].

(** The fields of the plan that replaces an element of a [plans] array, in
    the words of the specification: the amount as a number, the quantity as
    a number or 0 when it is falsy, the other properties as given. *)
Definition replacement `{Runtime} (plan : JsVal) : ProjectPlans.fields :=
  {| ProjectPlans.plan_name := prop plan "plan_name";
     ProjectPlans.amount := JNum (Number (prop plan "amount"));
     ProjectPlans.quantity :=
       if truthy (prop plan "quantity")
       then JNum (Number (prop plan "quantity"))
       else JNum 0%float;
     ProjectPlans.feedback := prop plan "feedback";
     ProjectPlans.feedback_img := prop plan "feedback_img";
     ProjectPlans.delivery_date := prop plan "delivery_date" |}.

(** No registered route serves the request: the static files and the three
    routers pass it on as it is, and it is not a GET or HEAD request for
    the health-check path. *)
Definition unrouted (st : Stack) (req : Request) : Prop :=
  express_static st req = Next req /\
  usersRouter st req = Next req /\
  projectRouter st req = Next req /\
  uploadRouter st req = Next req /\
  ~ ((method req = "GET" \/ method req = "HEAD") /\
     path_matches st "/healthcheck" (path req) = true).

(* ================================================================== *)
(** ** Sample data *)

Module Sample.

(** A runtime for running the handlers on examples: decimal strings convert
    to their integer value, anything else to [NaN]; the token ["t-alice"]
    decodes to Alice's identity and no other token verifies. *)
#[local] Instance runtime : Runtime := {
  StringToNumber s :=
    match parseInt s with
    | Some z => num_of_Z z
    | None => nan
    end;
  ObjectToString _ := "[object Object]";
  jwt_verify t :=
    if String.eqb t "t-alice" then Some (JObj [("id", JStr "alice")]) else None
}.

Definition alice : Users.row := {| Users.id := "alice"; Users.profile := JNull |}.
Definition bob : Users.row := {| Users.id := "bob"; Users.profile := JNull |}.

Definition tech : Categories.row :=
  {| Categories.id := JNum 1; Categories.name := JStr "tech" |}.
Definition art : Categories.row :=
  {| Categories.id := JNum 2; Categories.name := JStr "art" |}.

Definition lamp : Projects.row :=
  {| Projects.id := 1;
     Projects.title := JStr "Lamp";
     Projects.summary := JStr "A lamp";
     Projects.category := tech;
     Projects.total_amount := JNum 1000;
     Projects.start_time := JStr "2025-01-01";
     Projects.end_time := JStr "2025-02-01";
     Projects.cover := JStr "lamp.png";
     Projects.full_content := JStr "All about the lamp";
     Projects.project_team := JStr "A and B";
     Projects.faq := JNull;
     Projects.user := alice;
     Projects.user_id := "alice" |}.

Definition tier (name : string) (price : float) : ProjectPlans.fields :=
  {| ProjectPlans.plan_name := JStr name;
     ProjectPlans.amount := JNum price;
     ProjectPlans.quantity := JNum 10;
     ProjectPlans.feedback := JStr "thanks";
     ProjectPlans.feedback_img := JStr "img.png";
     ProjectPlans.delivery_date := JStr "2025-03-01" |}.

Definition stored (n : Z) (f : ProjectPlans.fields) (owner : Z) : ProjectPlans.row :=
  {| ProjectPlans.plan_id := n; ProjectPlans.data := f; ProjectPlans.project_id := owner |}.

Definition db : DB :=
  {| users := [alice; bob];
     categories := [tech; art];
     projects := [lamp];
     projectPlans := [stored 7 (tier "gold" 300) 1;
                      stored 3 (tier "bronze" 100) 1;
                      stored 5 (tier "silver" 200) 1];
     next_project_id := 2;
     next_plan_id := 8 |}.

Definition request (m p : string) (ps : list (string * string)) (b : JsVal)
           (u : option Users.row) : Request :=
  {| method := m; path := p; params := ps; authorization := None; body := b;
     user := u; log := true |}.

(** A PATCH of project 1 with the given body, by the given user. *)
Definition patch (b : JsVal) (u : Users.row) : Request :=
  request "PATCH" "/api/v1/projects/1" [("project_id", "1")] b (Some u).

(** The same store after the owner column of the lamp project has drifted
    away from its owner relation. *)
Definition drifted_lamp : Projects.row :=
  {| Projects.id := 1;
     Projects.title := JStr "Lamp";
     Projects.summary := JStr "A lamp";
     Projects.category := tech;
     Projects.total_amount := JNum 1000;
     Projects.start_time := JStr "2025-01-01";
     Projects.end_time := JStr "2025-02-01";
     Projects.cover := JStr "lamp.png";
     Projects.full_content := JStr "All about the lamp";
     Projects.project_team := JStr "A and B";
     Projects.faq := JNull;
     Projects.user := alice;
     Projects.user_id := "bob" |}.

Definition drifted_db : DB :=
  {| users := [alice; bob];
     categories := [tech; art];
     projects := [drifted_lamp];
     projectPlans := projectPlans db;
     next_project_id := 2;
     next_plan_id := 8 |}.

(** The insert of new plans is rejected; every other call goes through. *)
Definition insert_fails : Faults :=
  {| users_find := None; categories_find := None; projects_find := None;
     projects_save := None; plans_delete := None;
     plans_save := Some (Error "insert failed") |}.

(** A stack in which every other package's middleware and every router
    passes each request on unchanged. *)
Definition quiet_stack : Stack :=
  {| express_json := Next; express_urlencoded := Next; express_static := Next;
     usersRouter := Next; projectRouter := Next; uploadRouter := Next;
     path_matches := String.eqb |}.

End Sample.

(* ================================================================== *)
(** ** The users router of [src/routes/users.js] *)

Module UsersRouter.

(** The handlers the router is built from, whose files are not analysed
    here: the authentication middleware [auth], the five controllers of
    [controllers/users], and what the framework's router answers by itself
    to an OPTIONS request. *)
Record Handlers : Type := {
  auth : Middleware;
  postSignup : Middleware;
  postLogin : Middleware;
  postStatus : Middleware;
  getProfile : Middleware;
  patchProfile : Middleware;
  automatic_options : Middleware
}.

(** Whether a route registered for [verb] serves the request's method: its
    own, and HEAD for a GET route. *)
Definition serves (verb : string) (req : Request) : bool :=
  String.eqb (method req) verb
  || (String.eqb verb "GET" && String.eqb (method req) "HEAD").

(** [router.VERB(pattern, h1, ..., hn)]: when the method and the path match,
    the handlers run in order, each one reached when the one before calls
    [next()]; otherwise the request goes to the next route. *)
Definition route (matches : string -> string -> bool) (verb pattern : string)
           (chain : list Middleware) : Middleware :=
  fun req =>
    if serves verb req && matches pattern (path req)
    then run chain req
    else Next req.

(** The five routes, in source order. *)
Definition routes (matches : string -> string -> bool) (h : Handlers)
  : list Middleware :=
  [route matches "POST" "/signup" [postSignup h];
   route matches "POST" "/signin" [postLogin h];
   route matches "POST" "/status" [auth h; postStatus h];
   route matches "GET" "/profile" [auth h; getProfile h];
   route matches "PATCH" "/profile" [auth h; patchProfile h]].

(** The exported router, on a request whose path is relative to the mount
    point. *)
Definition router (matches : string -> string -> bool) (h : Handlers) : Middleware :=
  fun req =>
    if String.eqb (method req) "OPTIONS" then automatic_options h req
    else run (routes matches h) req.

End UsersRouter.

(* ================================================================== *)
(** ** More vocabulary and sample data *)

(** No space occurs in the string. *)
Fixpoint spaceless (s : string) : bool :=
  match s with
  | EmptyString => true
  | String c rest => negb (Ascii.eqb c " ") && spaceless rest
  end.

(** The middleware registered before the health-check route. *)
Definition before_healthcheck (st : Stack) : list Middleware :=
  [cors; express_json st; express_urlencoded st; pinoHttp; express_static st;
   usersRouter st; projectRouter st; uploadRouter st].

(** What identifies the owner of a project row. *)
Definition owner_of (p : Projects.row) : Z * Users.row * string :=
  (Projects.id p, Projects.user p, Projects.user_id p).

Module Fixtures.

(** Handlers that answer with a status code that tells them apart; [auth]
    lets a request pass when it carries a user. *)
Definition answer (n : float) : Middleware :=
  fun _ => Done {| code := JNum n; payload := JNull |}.

Definition handlers : UsersRouter.Handlers :=
  {| UsersRouter.auth :=
       fun req => match user req with
                  | Some _ => Next req
                  | None => Done {| code := JNum 401; payload := JNull |}
                  end;
     UsersRouter.postSignup := answer 201;
     UsersRouter.postLogin := answer 200;
     UsersRouter.postStatus := answer 202;
     UsersRouter.getProfile := answer 203;
     UsersRouter.patchProfile := answer 204;
     UsersRouter.automatic_options := answer 200 |}.

(** A request to create a project, with Alice's token. *)
Definition create_request : Request :=
  {| method := "POST"; path := "/api/v1/projects"; params := [];
     authorization := Some "Bearer t-alice";
     body := JObj [("title", JStr "Kettle"); ("summary", JStr "A kettle");
                   ("category_id", JNum 1); ("total_amount", JNum 500);
                   ("start_time", JStr "2025-01-01");
                   ("end_time", JStr "2025-02-01");
                   ("cover", JStr "kettle.png");
                   ("full_content", JStr "All about it");
                   ("project_team", JStr "C and D"); ("faq", JArr [])];
     user := None; log := true |}.

(** The same request with another authorization header. *)
Definition create_with (header : option string) : Request :=
  {| method := "POST"; path := "/api/v1/projects"; params := [];
     authorization := header; body := body create_request;
     user := None; log := true |}.

(** A request as it arrives: no logger attached yet. *)
Definition raw_request (m p : string) : Request :=
  {| method := m; path := p; params := []; authorization := None;
     body := JUndefined; user := None; log := false |}.

(** A stack whose JSON body parser rejects every request with a 400 error
    and in which every other outside middleware passes the request on. *)
Definition strict_json_stack : Stack :=
  {| express_json := fun req => Fail (appError 400 (JStr "bad JSON")) req;
     express_urlencoded := Next; express_static := Next;
     usersRouter := Next; projectRouter := Next; uploadRouter := Next;
     path_matches := String.eqb |}.

(** The project save is rejected; every other call goes through. *)
Definition save_fails : Faults :=
  {| users_find := None; categories_find := None; projects_find := None;
     projects_save := Some (Error "save failed"); plans_delete := None;
     plans_save := None |}.

(** The lookup of the user is rejected with an error that carries a 503. *)
Definition users_down : Faults :=
  {| users_find := Some {| status := JNum 503; message := JStr "db down" |};
     categories_find := None; projects_find := None;
     projects_save := None; plans_delete := None; plans_save := None |}.

(** A second project, owned by Bob, with one plan of its own. *)
Definition kettle : Projects.row :=
  {| Projects.id := 2;
     Projects.title := JStr "Kettle";
     Projects.summary := JStr "A kettle";
     Projects.category := Sample.art;
     Projects.total_amount := JNum 500;
     Projects.start_time := JStr "2025-01-01";
     Projects.end_time := JStr "2025-02-01";
     Projects.cover := JStr "kettle.png";
     Projects.full_content := JStr "All about it";
     Projects.project_team := JStr "C and D";
     Projects.faq := JArr [];
     Projects.user := Sample.bob;
     Projects.user_id := "bob" |}.

Definition two_projects : DB :=
  {| users := [Sample.alice; Sample.bob];
     categories := [Sample.tech; Sample.art];
     projects := [Sample.lamp; kettle];
     projectPlans := [Sample.stored 7 (Sample.tier "gold" 300) 1;
                      Sample.stored 4 (Sample.tier "steam" 80) 2;
                      Sample.stored 3 (Sample.tier "bronze" 100) 1];
     next_project_id := 3;
     next_plan_id := 8 |}.

(** Alice replaces the plans of her project and renames it. *)
Definition replace_request : Request :=
  Sample.patch
    (JObj [("title", JStr "Lamp II");
           ("plans", JArr [JObj [("plan_name", JStr "early bird");
                                 ("amount", JStr "50")];
                           JObj [("plan_name", JStr "patron");
                                 ("amount", JNum 500);
                                 ("quantity", JNum 3)]])])
    Sample.alice.

End Fixtures.

(* ================================================================== *)
(** ** More proof automation *)

Ltac run_create :=
  unfold createProject, try_catch, bind, lift, ret, await, destructurable,
    checkMissingProjectFields, users_findOneBy, categories_findOneBy,
    projects_insert.

Ltac run_plan :=
  unfold createProjectPlan, try_catch, bind, lift, ret, await, destructurable,
    projects_findOneBy, plans_insert.

Ltac run_get :=
  unfold getProject, try_catch, bind, ret, await, projects_findOne_with_plans.

Ltac by_method Hm := unfold UsersRouter.serves; rewrite Hm; reflexivity.

Ltac by_path Hm Hp := unfold UsersRouter.serves; rewrite Hm, Hp; reflexivity.

(* ================================================================== *)
(** ** Proof automation *)

(** Case analysis on the innermost scrutinee of the goal: one step of the
    handler under study. *)
Ltac step :=
  match goal with
  | |- context [match ?x with _ => _ end] =>
      match x with
      | context [match _ with _ => _ end] => fail 1
      | _ => destruct x eqn:?
      end
  end.

(** Unfolds [updateProject] down to the store operations. *)
Ltac run_handler :=
  unfold updateProject, try_catch, bind, lift, ret, await, destructurable,
    projects_findOne_owned, plans_delete_of, plans_insert, projects_update.

(* ================================================================== *)
(** ** Properties *)

(** *** General facts *)

Lemma JNum_neq (x y : float) :
  PrimFloat.eqb x y = false -> PrimFloat.is_nan x = false -> JNum x <> JNum y.
Proof.
  intros E N Heq. injection Heq as ->.
  unfold PrimFloat.is_nan in N. rewrite E in N. discriminate.
Qed.

Lemma assoc_absent (k : string) (props : list (string * JsVal)) :
  has_key k props = false -> assoc k props = JUndefined.
Proof.
  induction props as [|[k' v] rest IH]; cbn; [reflexivity|].
  destruct (String.eqb k k'); cbn; [discriminate|exact IH].
Qed.

Lemma absent_reads_undefined (b : JsVal) (k : string) :
  body_has b k = false -> prop b k = JUndefined.
Proof.
  destruct b; cbn; try reflexivity. apply assoc_absent.
Qed.

Lemma same_id_same_row (l : list Projects.row) (p r : Projects.row) :
  NoDup (map Projects.id l) -> In p l -> In r l ->
  Projects.id r = Projects.id p -> r = p.
Proof.
  induction l as [|x l IH]; cbn; [tauto|].
  intros Hnd [->|Hp] [->|Hr] E; inversion Hnd as [|? ? Hx Hl]; subst; auto.
  - exfalso. apply Hx. rewrite <- E. now apply in_map.
  - exfalso. apply Hx. rewrite E. now apply in_map.
Qed.

Lemma in_status_codes (z : Z) : 100 <= z <= 999 -> In z status_codes.
Proof.
  intros Hz. unfold status_codes. apply in_map_iff.
  exists (Z.to_nat z). split; [lia|]. apply in_seq. lia.
Qed.

Lemma status_codes_checked :
  forallb (fun z => PrimFloat.eqb (num_of_Z z) (num_of_Z z)
                    && truthy (JNum (num_of_Z z))
                    && Bool.eqb (PrimFloat.eqb (num_of_Z z) 500) (z =? 500))
          status_codes = true.
Proof. vm_compute. reflexivity. Qed.

Lemma status_code_facts (z : Z) :
  100 <= z <= 999 ->
  res_status (JNum (num_of_Z z)) = Ok (JNum (num_of_Z z)) /\
  truthy (JNum (num_of_Z z)) = true /\
  strict_eq (JNum (num_of_Z z)) (JNum 500) = (z =? 500).
Proof.
  intros Hz. pose proof (in_status_codes z Hz) as Hin.
  pose proof status_codes_checked as Hall.
  rewrite forallb_forall in Hall. specialize (Hall z Hin).
  apply andb_prop in Hall as [Hall H500]. apply andb_prop in Hall as [Hrefl Htruthy].
  split; [|split].
  - unfold res_status.
    replace (existsb (fun z0 => PrimFloat.eqb (num_of_Z z) (num_of_Z z0)) status_codes)
      with true; [reflexivity|].
    symmetry. apply existsb_exists. exists z. now split.
  - exact Htruthy.
  - cbn [strict_eq]. now apply Bool.eqb_prop.
Qed.

Lemma res_status_same (v accepted : JsVal) :
  res_status v = Ok accepted -> accepted = v.
Proof.
  unfold res_status. destruct v; try discriminate.
  destruct (existsb _ _); [now intros [= <-]|discriminate].
Qed.

(** What the error handler sends on a request that carries the logger, for
    an error whose status is a status code and for one without a status. *)
Lemma errorHandler_sends (e : JsError) (req : Request) (z : Z) :
  log req = true -> 100 <= z <= 999 -> status e = JNum (num_of_Z z) ->
  errorHandler (Some e) req
  = Ok {| code := JNum (num_of_Z z);
          payload :=
            JObj [("status", JStr (if z =? 500 then "error" else "failed"));
                  ("message", or_else (message e) (JStr "伺服器錯誤"))] |}.
Proof.
  intros Hlog Hz Hs. destruct (status_code_facts z Hz) as (Hres & Ht & H500).
  unfold errorHandler. rewrite Hlog. cbn [negb].
  unfold or_else at 1 2. rewrite Hs, Ht, Hres, H500. reflexivity.
Qed.


(* ------------------------------------------------------------------ *)
(** *** The model on concrete inputs *)

Example parseInt_reads_a_prefix :
  parseInt "  42abc" = Some 42 /\ parseInt "-7" = Some (-7) /\
  parseInt "+007" = Some 7 /\ parseInt "abc" = None /\ parseInt "" = None /\
  parseInt "-" = None.
Proof. repeat split. Qed.

Example split_and_join :
  split_space "Bearer abc.def" = ["Bearer"; "abc.def"] /\
  bearer_token (Some "Bearer abc.def") = JStr "abc.def" /\
  bearer_token (Some "Bearer") = JUndefined /\
  bearer_token None = JUndefined /\
  join ", " ["title"; "faq"] = "title, faq".
Proof. repeat split. Qed.

Example falsy_values :
  map truthy [JUndefined; JNull; JBool false; JNum 0; JNum (-0); JNum nan; JStr ""]
  = [false; false; false; false; false; false; false] /\
  map truthy [JBool true; JNum 1; JNum (-3); JStr "0"; JArr []; JObj []]
  = [true; true; true; true; true; true].
Proof. split; reflexivity. Qed.

Example Number_of_primitives `{Runtime} :
  Number JNull = 0%float /\ Number (JBool true) = 1%float /\
  Number (JNum 12.5) = 12.5%float /\ Number (JStr "12") = StringToNumber "12".
Proof. repeat split. Qed.

Example sort_is_stable :
  map (fun pl => (ProjectPlans.plan_id pl,
                  ProjectPlans.plan_name (ProjectPlans.data pl)))
      (sort by_plan_id
         [Sample.stored 2 (Sample.tier "b" 1) 1;
          Sample.stored 1 (Sample.tier "x" 1) 1;
          Sample.stored 2 (Sample.tier "a" 1) 1])
  = [(1, JStr "x"); (2, JStr "b"); (2, JStr "a")].
Proof. reflexivity. Qed.

Example createProject_accepts_a_full_body :
  @createProject Sample.runtime no_faults
    {| method := "POST"; path := "/api/v1/projects"; params := [];
       authorization := Some "Bearer t-alice";
       body := JObj [("title", JStr "Kettle"); ("summary", JStr "A kettle");
                     ("category_id", JNum 1); ("total_amount", JNum 500);
                     ("start_time", JStr "2025-01-01");
                     ("end_time", JStr "2025-02-01");
                     ("cover", JStr "kettle.png");
                     ("full_content", JStr "All about it");
                     ("project_team", JStr "C and D"); ("faq", JArr [])];
       user := None; log := true |}
    Sample.db
  = (Responded (json 200 (JObj [("status", JBool true);
                                 ("message", JStr "專案建立成功");
                                 ("data", JObj [("project_id", JNum 2)])])),
     set_projects
       (projects Sample.db ++
        [{| Projects.id := 2;
            Projects.title := JStr "Kettle";
            Projects.summary := JStr "A kettle";
            Projects.category := Sample.tech;
            Projects.total_amount := JNum 500;
            Projects.start_time := JStr "2025-01-01";
            Projects.end_time := JStr "2025-02-01";
            Projects.cover := JStr "kettle.png";
            Projects.full_content := JStr "All about it";
            Projects.project_team := JStr "C and D";
            Projects.faq := JArr [];
            Projects.user := Sample.alice;
            Projects.user_id := "alice" |}])
       3 Sample.db).
Proof. reflexivity. Qed.

Example error_before_the_logger :
  errorHandler (Some (appError 400 (JStr "bad body")))
    {| method := "POST"; path := "/api/v1/projects"; params := [];
       authorization := None; body := JUndefined; user := None; log := false |}
  = Throw (TypeError "error").
Proof. reflexivity. Qed.

Example getProject_lists_the_lamp :
  match fst (getProject no_faults
               (Sample.request "GET" "/api/v1/projects/1" [("project_id", "1")]
                  JUndefined None)
               Sample.db) with
  | Responded r =>
      [code r; prop (payload r) "status";
       prop (prop (payload r) "data") "title";
       prop (prop (payload r) "data") "faq";
       prop (prop (payload r) "data") "plans"]
  | Forwarded _ => []
  end
  = [JNum 200; JBool true; JStr "Lamp"; JArr [];
     JArr [JObj [("plan_name", JStr "bronze"); ("amount", JNum 100);
                 ("quantity", JNum 10); ("feedback", JStr "thanks");
                 ("feedback_img", JStr "img.png");
                 ("delivery_date", JStr "2025-03-01")];
           JObj [("plan_name", JStr "silver"); ("amount", JNum 200);
                 ("quantity", JNum 10); ("feedback", JStr "thanks");
                 ("feedback_img", JStr "img.png");
                 ("delivery_date", JStr "2025-03-01")];
           JObj [("plan_name", JStr "gold"); ("amount", JNum 300);
                 ("quantity", JNum 10); ("feedback", JStr "thanks");
                 ("feedback_img", JStr "img.png");
                 ("delivery_date", JStr "2025-03-01")]]].
Proof. reflexivity. Qed.

Example res_status_takes_status_codes :
  res_status (JNum 404) = Ok (JNum 404) /\
  res_status (JNum 100) = Ok (JNum 100) /\
  res_status (JNum 999) = Ok (JNum 999) /\
  res_status (JNum 42) = Throw (Error "Invalid status code") /\
  res_status (JNum 1000) = Throw (Error "Invalid status code") /\
  res_status (JStr "fail") = Throw (Error "Invalid status code") /\
  res_status (JBool true) = Throw (Error "Invalid status code") /\
  errorHandler (Some {| status := JNum 42; message := JStr "odd" |})
    (Sample.request "GET" "/" [] JUndefined None)
  = Throw (Error "Invalid status code").
Proof. repeat split; vm_compute; reflexivity. Qed.

(* ------------------------------------------------------------------ *)
(** *** Project creation: the required-field check *)

Section CreateProject.
Context `{Runtime}.

Lemma falsy_fields_spec (b : JsVal) (f : string) :
  In f (falsy_fields b) <-> In f requiredFields /\ truthy (prop b f) = false.
Proof.
  unfold falsy_fields. rewrite filter_In, negb_true_iff. reflexivity.
Qed.

Lemma createProject_when_missing fl req db :
  nullish (body req) = false ->
  falsy_fields (body req) <> [] ->
  createProject fl req db
  = (Responded
       {| code := JNum 400;
          payload :=
            JObj [("status", JBool false);
                  ("message",
                   JStr ("缺少必要欄位: " ++ join ", " (falsy_fields (body req))))] |},
     db).
Proof.
  intros Hb Hm.
  unfold createProject, try_catch, bind, lift, destructurable,
    checkMissingProjectFields, ret.
  rewrite Hb. fold (falsy_fields (body req)).
  destruct (falsy_fields (body req)) as [|n ns]; [congruence|reflexivity].
Qed.

Lemma createProject_when_complete fl req db r :
  nullish (body req) = false ->
  falsy_fields (body req) = [] ->
  fst (createProject fl req db) = Responded r ->
  code r = JNum 401 \/ code r = JNum 200.
Proof.
  intros Hb Hm.
  unfold createProject, try_catch, bind, lift, destructurable,
    checkMissingProjectFields, ret, await.
  rewrite Hb. fold (falsy_fields (body req)). rewrite Hm.
  cbn [List.length Z.of_nat Z.ltb Z.compare fst].
  destruct (bearer_token (authorization req)) as [ | | | |[|c t]| | ]; cbn;
    try (intros [= <-]; left; reflexivity).
  destruct (jwt_verify (String c t)); cbn; try (intros [= <-]; left; reflexivity).
  destruct (users_find fl); cbn; try discriminate.
  destruct (find _ (users db)); cbn; try discriminate.
  destruct (categories_find fl); cbn; try discriminate.
  destruct (find _ (categories db)); cbn; try discriminate.
  destruct (projects_save fl); cbn; try discriminate.
  intros [= <-]; right; reflexivity.
Qed.

Lemma createProject_without_body fl req db :
  nullish (body req) = true ->
  createProject fl req db
  = (Forwarded {| status := JNum 400; message := message (TypeError "title") |}, db).
Proof.
  intros Hb.
  unfold createProject, try_catch, bind, lift, destructurable. rewrite Hb.
  reflexivity.
Qed.

(** C4, amended.  [createProject] answers 400 itself if and only if the
    request has a body ([req.body] is neither [undefined] nor [null]) in
    which at least one of the ten required fields is absent or holds a
    falsy value ([null], [false], [0], [NaN], the empty string).  That
    answer is [{status: false, message}] where the message is
    ["缺少必要欄位: "] followed by the names of exactly those fields, in the
    order of the required-field list, separated by [", "].  The check looks
    at the truthiness of each field, not at its presence alone and not at
    its type.  A request without a body is not answered by the handler: the
    destructuring of [req.body] throws and an error with status 400 is
    handed to the error handler. *)
Theorem createProject_missing_fields fl req db :
  requiredFields
  = ["title"; "summary"; "category_id"; "total_amount"; "start_time"; "end_time";
     "cover"; "full_content"; "project_team"; "faq"] /\
  (forall f, In f (falsy_fields (body req)) <->
             In f requiredFields /\ truthy (prop (body req) f) = false) /\
  (forall f, In f requiredFields -> body_has (body req) f = false ->
             In f (falsy_fields (body req))) /\
  (nullish (body req) = false -> falsy_fields (body req) <> [] ->
   createProject fl req db
   = (Responded
        {| code := JNum 400;
           payload :=
             JObj [("status", JBool false);
                   ("message",
                    JStr ("缺少必要欄位: " ++ join ", " (falsy_fields (body req))))] |},
      db)) /\
  ((exists r, fst (createProject fl req db) = Responded r /\ code r = JNum 400)
   <-> nullish (body req) = false /\ falsy_fields (body req) <> []) /\
  (nullish (body req) = true ->
   exists e, createProject fl req db = (Forwarded e, db) /\ status e = JNum 400).
Proof.
  split; [reflexivity|]. split; [|split; [|split; [|split; [split|]]]].
  - intros f. apply falsy_fields_spec.
  - intros f Hin Habs. apply falsy_fields_spec. split; [exact Hin|].
    now rewrite (absent_reads_undefined _ _ Habs).
  - now apply createProject_when_missing.
  - intros (r & Hr & Hc).
    destruct (nullish (body req)) eqn:Hb.
    + rewrite (createProject_without_body fl req db Hb) in Hr. discriminate Hr.
    + split; [reflexivity|]. intros Hnil.
      destruct (createProject_when_complete fl req db r Hb Hnil Hr) as [E|E];
        rewrite E in Hc; revert Hc; apply JNum_neq; reflexivity.
  - intros [Hb Hm]. rewrite (createProject_when_missing fl req db Hb Hm).
    eexists; split; reflexivity.
  - intros Hb. rewrite (createProject_without_body fl req db Hb).
    eexists; split; reflexivity.
Qed.

End CreateProject.

(** C4: a body in which all ten required fields are present, with a goal
    amount of 0, is rejected with 400 and a message naming [total_amount];
    and a request without a body, in which all ten fields are absent, is
    not answered with the list of their names: the handler forwards an
    error instead. *)
Lemma createProject_rejects_zero_amount :
  let b := JObj [("title", JStr "Kettle"); ("summary", JStr "A kettle");
                 ("category_id", JNum 1); ("total_amount", JNum 0);
                 ("start_time", JStr "2025-01-01"); ("end_time", JStr "2025-02-01");
                 ("cover", JStr "kettle.png"); ("full_content", JStr "All about it");
                 ("project_team", JStr "C and D"); ("faq", JStr "none")] in
  (forallb (body_has b) requiredFields = true /\
   @createProject Sample.runtime no_faults
     (Sample.request "POST" "/api/v1/projects" [] b None) Sample.db
   = (Responded
        {| code := JNum 400;
           payload := JObj [("status", JBool false);
                            ("message", JStr "缺少必要欄位: total_amount")] |},
      Sample.db)) /\
  (forallb (body_has JUndefined) requiredFields = false /\
   exists e,
     @createProject Sample.runtime no_faults
       (Sample.request "POST" "/api/v1/projects" [] JUndefined None) Sample.db
     = (Forwarded e, Sample.db) /\
     status e = JNum 400).
Proof.
  cbv zeta. split; [split; reflexivity|]. split; [reflexivity|].
  eexists. split; reflexivity.
Qed.

Lemma createProject_missing_fields_witness :
  let req := Sample.request "POST" "/api/v1/projects" []
               (JObj [("title", JStr "Kettle"); ("faq", JStr "")]) None in
  nullish (body req) = false /\
  @createProject Sample.runtime no_faults req Sample.db
  = (Responded
       {| code := JNum 400;
          payload :=
            JObj [("status", JBool false);
                  ("message",
                   JStr "缺少必要欄位: summary, category_id, total_amount, start_time, end_time, cover, full_content, project_team, faq")] |},
     Sample.db).
Proof.
  split; [reflexivity|].
  destruct (@createProject_missing_fields Sample.runtime no_faults
              (Sample.request "POST" "/api/v1/projects" []
                 (JObj [("title", JStr "Kettle"); ("faq", JStr "")]) None)
              Sample.db) as (_ & _ & _ & Hm & _).
  apply Hm; [reflexivity|discriminate].
Defined.

(* ------------------------------------------------------------------ *)
(** *** The centralized error handler *)

(** C8.  The body parsers are registered before the logging middleware,
    so an error of theirs reaches the error handler on a request that has
    no [req.log]: the handler throws at [req.log.error] before it sets any
    status, no envelope is sent and the answer is left to the framework's
    final handler; the same error on a request that carries the logger is
    answered with its status 400 and the envelope
    [{status: "failed", message}]. *)
Theorem parser_error_gets_no_envelope :
  let err := appError 400 (JStr "bad JSON") in
  let req := Fixtures.raw_request "POST" "/api/v1/projects" in
  log req = false /\
  run (before_catch_all Fixtures.strict_json_stack) req = Fail err req /\
  errorHandler (Some err) req = Throw (TypeError "error") /\
  app Fixtures.strict_json_stack req = FinalHandler (Some (TypeError "error")) /\
  errorHandler (Some err) (Sample.request "POST" "/api/v1/projects" [] JUndefined None)
  = Ok {| code := JNum 400;
          payload := JObj [("status", JStr "failed"); ("message", JStr "bad JSON")] |}.
Proof. repeat split; vm_compute; reflexivity. Qed.

(* ------------------------------------------------------------------ *)
(** *** The catch-all 404 middleware *)

Lemma run_reaches (l rest : list Middleware) (req req' : Request) :
  run l req = Next req' -> run (l ++ rest) req = run rest req'.
Proof.
  revert req. induction l as [|mw l IH]; intros req; cbn.
  - now intros [= ->].
  - destruct (mw req) as [r| |]; try discriminate. apply IH.
Qed.

(** C9, amended.  Every request other than a preflight (OPTIONS) request
    whose body the two parsers accept and which no registered route serves
    (the static files and the three routers pass it on, and it is not a GET
    or HEAD request for the health-check path) receives 404 with the body
    [{status: "error", message: "無此路由"}], whatever its method. *)
Theorem unmatched_request_gets_404 (st : Stack) (req json_done parsed logged : Request) :
  method req <> "OPTIONS" ->
  express_json st req = Next json_done ->
  express_urlencoded st json_done = Next parsed ->
  pinoHttp parsed = Next logged ->
  unrouted st logged ->
  app st req
  = Sent {| code := JNum 404;
            payload := JObj [("status", JStr "error"); ("message", JStr "無此路由")] |}.
Proof.
  intros Hm Hjson Hurl Hlog (Hstatic & Husers & Hprojects & Huploads & Hhealth).
  unfold app, before_catch_all. cbn [List.app run].
  unfold cors. apply String.eqb_neq in Hm. rewrite Hm.
  rewrite Hjson, Hurl, Hlog, Hstatic, Husers, Hprojects, Huploads.
  unfold healthcheck.
  destruct (path_matches st "/healthcheck" (path logged)) eqn:Hp.
  - destruct (String.eqb_spec (method logged) "GET") as [Hg|Hg];
      [exfalso; apply Hhealth; auto|].
    destruct (String.eqb_spec (method logged) "HEAD") as [Hh|Hh];
      [exfalso; apply Hhealth; auto|].
    reflexivity.
  - rewrite andb_false_r. reflexivity.
Qed.

Lemma unmatched_request_gets_404_witness :
  let req := Fixtures.raw_request "DELETE" "/nowhere" in
  method req <> "OPTIONS" /\
  unrouted Sample.quiet_stack (Sample.request "DELETE" "/nowhere" [] JUndefined None) /\
  app Sample.quiet_stack req
  = Sent {| code := JNum 404;
            payload := JObj [("status", JStr "error"); ("message", JStr "無此路由")] |}.
Proof.
  assert (Hu : unrouted Sample.quiet_stack
                 (Sample.request "DELETE" "/nowhere" [] JUndefined None)).
  { repeat split. intros [[Hm|Hm] _]; discriminate Hm. }
  split; [discriminate|]. split; [exact Hu|].
  exact (unmatched_request_gets_404 Sample.quiet_stack
           (Fixtures.raw_request "DELETE" "/nowhere") _ _ _
           ltac:(discriminate) eq_refl eq_refl eq_refl Hu).
Defined.

(** C9: a preflight (OPTIONS) request for a path that no registered route
    serves receives 204 from the CORS middleware, not the 404 envelope,
    whatever the other middleware and the routers do; and a request for
    such a path whose body the JSON parser rejects is not sent the 404
    envelope either. *)
Lemma preflight_of_unmatched_path :
  let req := Sample.request "OPTIONS" "/nowhere" [] JUndefined None in
  let post := Fixtures.raw_request "POST" "/nowhere" in
  unrouted Sample.quiet_stack req /\
  (forall st, app st req = Sent {| code := JNum 204; payload := JUndefined |}) /\
  (forall st,
     app st req
     <> Sent {| code := JNum 404;
                payload := JObj [("status", JStr "error");
                                 ("message", JStr "無此路由")] |}) /\
  unrouted Fixtures.strict_json_stack post /\
  app Fixtures.strict_json_stack post = FinalHandler (Some (TypeError "error")).
Proof.
  cbv zeta. split; [|split; [|split; [|split]]].
  - repeat split. intros [[Hm|Hm] _]; discriminate Hm.
  - intros st. reflexivity.
  - intros st E. cbv in E. discriminate E.
  - repeat split. intros [[Hm|Hm] _]; discriminate Hm.
  - reflexivity.
Qed.

(* ------------------------------------------------------------------ *)
(** *** Reading a project: the plans come sorted *)

Lemma insert_In (x y : ProjectPlans.row) (l : list ProjectPlans.row) :
  In y (insert by_plan_id x l) <-> y = x \/ In y l.
Proof.
  induction l as [|z l IH]; cbn.
  - intuition congruence.
  - destruct (by_plan_id x z <=? 0); cbn; rewrite ?IH; intuition congruence.
Qed.

Lemma insert_perm (x : ProjectPlans.row) (l : list ProjectPlans.row) :
  Permutation (insert by_plan_id x l) (x :: l).
Proof.
  induction l as [|z l IH]; cbn; [reflexivity|].
  destruct (by_plan_id x z <=? 0); [reflexivity|].
  rewrite IH. apply perm_swap.
Qed.

Lemma insert_sorted (x : ProjectPlans.row) (l : list ProjectPlans.row) :
  StronglySorted plan_le l -> StronglySorted plan_le (insert by_plan_id x l).
Proof.
  induction 1 as [|z l Hl IH Hz]; cbn.
  - repeat constructor.
  - destruct (Z.leb_spec (by_plan_id x z) 0) as [Hle|Hgt]; unfold by_plan_id in *.
    + constructor; [now constructor|].
      constructor; [unfold plan_le; lia|].
      eapply Forall_impl; [|exact Hz]. unfold plan_le. intros; lia.
    + constructor; [exact IH|].
      apply Forall_forall. intros y Hy. apply insert_In in Hy as [->|Hy].
      * unfold plan_le; lia.
      * rewrite Forall_forall in Hz. now apply Hz.
Qed.

Lemma sort_perm (l : list ProjectPlans.row) : Permutation (sort by_plan_id l) l.
Proof.
  induction l as [|x l IH]; cbn; [reflexivity|].
  rewrite insert_perm. now apply perm_skip.
Qed.

Lemma sort_sorted (l : list ProjectPlans.row) : StronglySorted plan_le (sort by_plan_id l).
Proof.
  induction l as [|x l IH]; cbn; [constructor|]. now apply insert_sorted.
Qed.

Lemma plan_views_display (l : list ProjectPlans.row) :
  Forall (fun v => keys v = display_fields) (map plan_view l).
Proof.
  apply Forall_forall. intros v Hv. apply in_map_iff in Hv as (pl & <- & _).
  reflexivity.
Qed.

(** C6.  When the lookup is not rejected and the path parameter reads as
    the identifier of a stored project, [getProject] answers 200 with
    [status: true] and, under [data], that project's fields, where [plans]
    is the array of the project's plans in ascending order of [plan_id],
    each plan an object of exactly the six display properties (so without
    the plan identifier) holding the stored values, and where [faq] is the
    empty array when the stored [faq] is [null] or [undefined] and the
    stored value when that is truthy.  When no project has that identifier
    the handler forwards a 404 error, which the error handler sends as a
    404 response.  The store is not changed. *)
Theorem getProject_sorted_view (fl : Faults) (req : Request) (db : DB) (n : Z) :
  projects_find fl = None ->
  parseInt_param (param req "project_id") = Some n ->
  (forall p, project_by_id n db = Some p ->
     exists r sortedPlans,
       getProject fl req db = (Responded r, db) /\
       code r = JNum 200 /\
       prop (payload r) "status" = JBool true /\
       Permutation sortedPlans (plans_of (Some n) db) /\
       StronglySorted plan_le sortedPlans /\
       prop (prop (payload r) "data") "plans"
       = JArr (map (fun plan =>
                      JObj [("plan_name", ProjectPlans.plan_name (ProjectPlans.data plan));
                            ("amount", ProjectPlans.amount (ProjectPlans.data plan));
                            ("quantity", ProjectPlans.quantity (ProjectPlans.data plan));
                            ("feedback", ProjectPlans.feedback (ProjectPlans.data plan));
                            ("feedback_img",
                             ProjectPlans.feedback_img (ProjectPlans.data plan));
                            ("delivery_date",
                             ProjectPlans.delivery_date (ProjectPlans.data plan))])
                   sortedPlans) /\
       (forall views,
          prop (prop (payload r) "data") "plans" = JArr views ->
          Forall (fun v => keys v = display_fields /\ ~ In "plan_id" (keys v)) views) /\
       (nullish (Projects.faq p) = true ->
        prop (prop (payload r) "data") "faq" = JArr []) /\
       (truthy (Projects.faq p) = true ->
        prop (prop (payload r) "data") "faq" = Projects.faq p) /\
       map (prop (prop (payload r) "data"))
           ["title"; "summary"; "total_amount"; "start_time"; "end_time"; "cover";
            "full_content"; "project_team"]
       = [Projects.title p; Projects.summary p; Projects.total_amount p;
          Projects.start_time p; Projects.end_time p; Projects.cover p;
          Projects.full_content p; Projects.project_team p]) /\
  (project_by_id n db = None ->
     getProject fl req db = (Forwarded (appError 404 (JStr "無此專案")), db) /\
     (log req = true ->
      served (fst (getProject fl req db)) req
      = Sent (json 404 (JObj [("status", JStr "failed");
                               ("message", JStr "無此專案")])))).
Proof.
  intros Hfl Hkey. unfold project_by_id.
  unfold getProject, try_catch, bind, await, ret, projects_findOne_with_plans.
  rewrite Hfl, Hkey. cbn [id_is]. split.
  - intros p Hp. rewrite Hp. cbn [option_map].
    eexists. exists (sort by_plan_id (plans_of (Some n) db)).
    split; [reflexivity|]. split; [reflexivity|]. split; [reflexivity|].
    split; [apply sort_perm|]. split; [apply sort_sorted|].
    split; [reflexivity|]. split; [|split; [|split; [|reflexivity]]].
    + intros views [= <-].
      eapply Forall_impl; [|apply plan_views_display].
      intros v Hv. split; [exact Hv|]. rewrite Hv. cbn.
      intuition discriminate.
    + intros Hfaq. cbn. unfold or_else.
      destruct (Projects.faq p); cbn in *; try discriminate; reflexivity.
    + intros Hfaq. cbn. unfold or_else. now rewrite Hfaq.
  - intros Hnone. rewrite Hnone. cbn [option_map]. split; [reflexivity|].
    intros Hlog. cbn [fst served].
    now rewrite (errorHandler_sends (appError 404 (JStr "無此專案")) req 404 Hlog
                   ltac:(lia) eq_refl).
Qed.

Lemma getProject_sorted_view_witness :
  let req := Sample.request "GET" "/api/v1/projects/1" [("project_id", "1")]
               JUndefined None in
  parseInt_param (param req "project_id") = Some 1 /\
  project_by_id 1 Sample.db = Some Sample.lamp /\
  exists r sortedPlans,
    getProject no_faults req Sample.db = (Responded r, Sample.db) /\
    code r = JNum 200 /\
    Permutation sortedPlans (plans_of (Some 1) Sample.db) /\
    StronglySorted plan_le sortedPlans /\
    prop (prop (payload r) "data") "plans"
    = JArr (map (fun plan =>
                   JObj [("plan_name", ProjectPlans.plan_name (ProjectPlans.data plan));
                         ("amount", ProjectPlans.amount (ProjectPlans.data plan));
                         ("quantity", ProjectPlans.quantity (ProjectPlans.data plan));
                         ("feedback", ProjectPlans.feedback (ProjectPlans.data plan));
                         ("feedback_img",
                          ProjectPlans.feedback_img (ProjectPlans.data plan));
                         ("delivery_date",
                          ProjectPlans.delivery_date (ProjectPlans.data plan))])
                sortedPlans) /\
    prop (prop (payload r) "data") "faq" = JArr [].
Proof.
  split; [reflexivity|]. split; [reflexivity|].
  destruct (proj1 (getProject_sorted_view no_faults
                     (Sample.request "GET" "/api/v1/projects/1"
                        [("project_id", "1")] JUndefined None)
                     Sample.db 1 eq_refl eq_refl) Sample.lamp eq_refl)
    as (r & sortedPlans & Hr & Hc & _ & Hp & Hs & Hplans & _ & Hfaq & _).
  exists r, sortedPlans. repeat (split; [assumption|]). apply Hfaq. reflexivity.
Defined.

(* ------------------------------------------------------------------ *)
(** *** Adding a plan to a project *)

Lemma found_in_store (n : Z) (db : DB) (p : Projects.row) :
  project_by_id n db = Some p -> In p (projects db) /\ Projects.id p = n.
Proof.
  unfold project_by_id. intros Hf. apply find_some in Hf as [Hin Hid].
  split; [exact Hin|]. now apply Z.eqb_eq.
Qed.

(** C7, amended.  When the request body carries a [plans] value that is
    neither [null] nor [undefined], [createProjectPlan] answers 404 and
    inserts no plan if no project has the identifier of the path, and
    otherwise inserts exactly one plan linked to that project and answers
    201 with the created plan.  For every request, every plan that the
    handler adds to the store belongs to a project of the store: no plan
    is created without an existing parent project. *)
Theorem createProjectPlan_parent (fl : Faults) (req : Request) (db : DB) :
  (forall row,
     In row (projectPlans (snd (createProjectPlan fl req db))) ->
     In row (projectPlans db) \/
     exists p, In p (projects db) /\ Projects.id p = ProjectPlans.project_id row) /\
  (forall plans n,
     get_prop (body req) "plans" = Ok plans ->
     nullish plans = false ->
     parseInt_param (param req "id") = Some n ->
     projects_find fl = None ->
     (project_by_id n db = None ->
      createProjectPlan fl req db
      = (Responded (json 404 (JObj [("status", JBool false);
                                     ("message", JStr "找不到專案")])), db)) /\
     (forall p,
        project_by_id n db = Some p ->
        plans_save fl = None ->
        exists r row db',
          createProjectPlan fl req db = (Responded r, db') /\
          code r = JNum 201 /\
          prop (payload r) "data"
          = ProjectPlans.to_js {| ProjectPlans.draft := plan_fields plans;
                                  ProjectPlans.project := p |}
                               (ProjectPlans.plan_id row) /\
          projectPlans db' = (projectPlans db ++ [row])%list /\
          ProjectPlans.project_id row = Projects.id p /\
          ProjectPlans.data row = plan_fields plans /\
          projects db' = projects db)).
Proof.
  split.
  - intros row.
    unfold createProjectPlan, try_catch, bind, lift, ret, await, destructurable,
      projects_findOneBy, plans_insert.
    destruct (get_prop (body req) "plans") as [plans|e]; cbn [snd]; auto.
    destruct (nullish plans); cbn [snd]; auto.
    destruct (projects_find fl); cbn [snd]; auto.
    destruct (find _ (projects db)) as [p|] eqn:Hf; cbn [snd]; auto.
    destruct (plans_save fl); cbn [snd]; auto.
    cbn [projectPlans set_plans stored_from]. rewrite in_app_iff. cbn [In].
    intros [Hin|[<-|[]]]; [now left|right].
    apply find_some in Hf as [Hin _]. now exists p.
  - intros plans n Hplans Hnn Hkey Hfind.
    unfold createProjectPlan, try_catch, bind, lift, ret, await, destructurable,
      projects_findOneBy, plans_insert, project_by_id.
    rewrite Hplans, Hnn, Hkey, Hfind. cbn [id_is]. split.
    + intros ->. reflexivity.
    + intros p -> ->. cbn [stored_from].
      do 3 eexists. split; [reflexivity|].
      repeat (split; [reflexivity|]). reflexivity.
Qed.

Lemma createProjectPlan_parent_witness :
  let plans := JObj [("plan_name", JStr "gold"); ("amount", JNum 300)] in
  let req := Sample.request "POST" "/api/v1/projects/1/plans" [("id", "1")]
               (JObj [("plans", plans)]) None in
  get_prop (body req) "plans" = Ok plans /\
  nullish plans = false /\
  parseInt_param (param req "id") = Some 1 /\
  project_by_id 1 Sample.db = Some Sample.lamp /\
  exists r row db',
    createProjectPlan no_faults req Sample.db = (Responded r, db') /\
    code r = JNum 201 /\
    projectPlans db' = (projectPlans Sample.db ++ [row])%list /\
    ProjectPlans.project_id row = 1.
Proof.
  repeat (split; [reflexivity|]).
  destruct (proj2 (proj2 (createProjectPlan_parent no_faults
                     (Sample.request "POST" "/api/v1/projects/1/plans" [("id", "1")]
                        (JObj [("plans", JObj [("plan_name", JStr "gold");
                                                ("amount", JNum 300)])]) None)
                     Sample.db) _ 1 eq_refl eq_refl eq_refl eq_refl)
                  Sample.lamp eq_refl eq_refl)
    as (r & row & db' & Hr & Hc & _ & Hp & Hid & _).
  exists r, row, db'. auto.
Defined.

(** C7: for a project identifier that does not exist and a body without a
    [plans] property, the handler forwards a 500 error; the client is not
    sent 404. *)
Lemma createProjectPlan_without_plans :
  let req := Sample.request "POST" "/api/v1/projects/9/plans" [("id", "9")]
               (JObj []) None in
  project_by_id 9 Sample.db = None /\
  exists e r,
    createProjectPlan no_faults req Sample.db = (Forwarded e, Sample.db) /\
    status e = JNum 500 /\
    served (Forwarded e) req = Sent r /\
    code r = JNum 500 /\
    code r <> JNum 404.
Proof.
  split; [reflexivity|].
  do 2 eexists. split; [reflexivity|]. split; [reflexivity|].
  split; [reflexivity|]. split; [reflexivity|].
  apply JNum_neq; reflexivity.
Qed.

(* ------------------------------------------------------------------ *)
(** *** Updating a project *)

Lemma find_none_intro {A} (f : A -> bool) (l : list A) :
  (forall x, In x l -> f x = false) -> find f l = None.
Proof.
  induction l as [|a l IH]; cbn; [reflexivity|].
  intros Hall. rewrite (Hall a (or_introl eq_refl)). apply IH.
  intros x Hx. apply Hall. now right.
Qed.

Lemma find_refined {A} (f g : A -> bool) (l : list A) (a : A) :
  find f l = Some a -> g a = true -> find (fun x => f x && g x) l = Some a.
Proof.
  induction l as [|b l IH]; cbn; [discriminate|].
  destruct (f b) eqn:Ef; cbn.
  - intros [= ->] Hg. now rewrite Hg.
  - auto.
Qed.

Lemma find_rewritten (n : Z) (rows : list Projects.row) (p p' : Projects.row) :
  find (fun r => Projects.id r =? n) rows = Some p ->
  Projects.id p' = n ->
  find (fun r => Projects.id r =? n) (rewritten p' rows) = Some p'.
Proof.
  intros Hf <-. unfold rewritten.
  induction rows as [|r rows IH]; cbn in *; [discriminate|].
  destruct (Projects.id r =? Projects.id p') eqn:E; cbn.
  - now rewrite Z.eqb_refl.
  - rewrite E. now apply IH.
Qed.

Lemma rewritten_category (rows : list Projects.row) (p p' : Projects.row) :
  NoDup (map Projects.id rows) -> In p rows ->
  Projects.id p' = Projects.id p -> Projects.category p' = Projects.category p ->
  map (fun r => (Projects.id r, Projects.category r)) (rewritten p' rows)
  = map (fun r => (Projects.id r, Projects.category r)) rows.
Proof.
  intros Hnd Hp Hid Hc. unfold rewritten. rewrite map_map. apply map_ext_in.
  intros r Hr.
  destruct (Z.eqb_spec (Projects.id r) (Projects.id p')) as [E|E]; [|reflexivity].
  rewrite Hid in E. rewrite (same_id_same_row rows p r Hnd Hp Hr E). congruence.
Qed.

Lemma owned_lookup (req : Request) (db : DB) (n : Z) (p : Projects.row) (u : Users.row) :
  parseInt_param (param req "project_id") = Some n ->
  project_by_id n db = Some p ->
  Projects.user_id p = Users.id u ->
  fst (projects_findOne_owned (parseInt_param (param req "project_id")) (Users.id u) db)
  = Some p.
Proof.
  intros Hkey Hp Hu. unfold projects_findOne_owned. rewrite Hkey. cbn [fst id_is].
  apply (find_refined (fun r => Projects.id r =? n)); [exact Hp|].
  rewrite Hu. apply String.eqb_refl.
Qed.

Section UpdateProject.
Context `{Runtime}.

(** What [updateProject] leaves in the project table: nothing new, unless it
    answers; then the row it loaded with the assignments applied. *)
Lemma updateProject_projects fl req db :
  (projects (snd (updateProject fl req db)) = projects db /\
   forall r, fst (updateProject fl req db) <> Responded r) \/
  exists u p,
    user req = Some u /\
    fst (projects_findOne_owned (parseInt_param (param req "project_id")) (Users.id u) db)
    = Some p /\
    projects (snd (updateProject fl req db))
    = rewritten (apply_fields (body req) p) (projects db).
Proof.
  run_handler.
  repeat (step; cbn [fst snd projects set_plans set_projects]).
  all: try (left; split; [reflexivity|discriminate]).
  all: right; do 2 eexists; split; [reflexivity|]; split; [eassumption|reflexivity].
Qed.

Lemma apply_fields_absent (b : JsVal) (p : Projects.row) (F : Field) :
  prop b (key F) = JUndefined -> field F (apply_fields b p) = field F p.
Proof.
  destruct F; cbn; intros ->; reflexivity.
Qed.

Lemma apply_fields_present (b : JsVal) (p : Projects.row) (F : Field) :
  prop b (key F) <> JUndefined ->
  field F (apply_fields b p) = assigned F (prop b (key F)).
Proof.
  destruct F; cbn; destruct (prop b _); try reflexivity; congruence.
Qed.

Lemma apply_fields_cases (b : JsVal) (p : Projects.row) (F : Field) :
  field F (apply_fields b p) = field F p \/
  field F (apply_fields b p) = assigned F (prop b (key F)).
Proof.
  destruct F; cbn; destruct (prop b _); auto.
Qed.

Lemma new_plan_throws (project : Projects.row) (plans : list JsVal) (e : JsError) :
  map_result (new_plan project) plans = Throw e -> e = TypeError "plan_name".
Proof.
  induction plans as [|plan plans IH]; cbn; [discriminate|].
  unfold new_plan at 1. destruct (nullish plan).
  - now intros [= <-].
  - destruct (map_result _ plans); [discriminate|].
    intros [= <-]. now apply IH.
Qed.

(** With no repository call rejected, an error with status 403 comes from
    the ownership comparison alone. *)
Lemma forbidden_only_on_mismatch req db u e :
  user req = Some u ->
  fst (updateProject no_faults req db) = Forwarded e ->
  status e = JNum 403 ->
  exists p,
    fst (projects_findOne_owned (parseInt_param (param req "project_id"))
           (Users.id u) db) = Some p /\
    Users.id (Projects.user p) <> Users.id u.
Proof.
  intros Hu. run_handler. rewrite Hu.
  cbn [projects_find plans_delete plans_save projects_save no_faults].
  repeat (step; cbn [fst snd]); intros [= <-];
    try match goal with
        | Ht : map_result _ _ = Throw _ |- _ => apply new_plan_throws in Ht; subst
        end;
    cbn [status appError TypeError Error];
    try discriminate;
    try (intros E; exfalso; revert E; apply JNum_neq; reflexivity).
  intros _; eexists; split; [reflexivity|].
  apply String.eqb_neq.
  match goal with Hn : negb _ = true |- _ => apply negb_true_iff in Hn; exact Hn end.
Qed.

(** C1, amended.  For every update request by an authenticated user whose
    identifier differs from the owner recorded on the project row
    ([user_id]), the owner-filtered lookup finds no row: [updateProject]
    forwards the 400 "not found" error and modifies neither the project
    nor its plans.  The 403 error is forwarded when the filtered lookup
    does return a row and the identifier of its loaded owner differs from
    the requester's, and nothing is modified then either; with no
    repository call rejected, that is the only way to a 403 error. *)
Theorem updateProject_non_owner fl req db u :
  user req = Some u ->
  projects_find fl = None ->
  ((forall p, In p (projects db) ->
              id_is (parseInt_param (param req "project_id")) (Projects.id p) = true ->
              Projects.user_id p <> Users.id u) ->
   updateProject fl req db = (Forwarded (appError 400 (JStr "找不到提案")), db)) /\
  (forall p,
     fst (projects_findOne_owned (parseInt_param (param req "project_id")) (Users.id u) db)
     = Some p ->
     Users.id (Projects.user p) <> Users.id u ->
     updateProject fl req db
     = (Forwarded (appError 403 (JStr "你沒有修改此提案的權限")), db)) /\
  (forall e,
     fst (updateProject no_faults req db) = Forwarded e ->
     status e = JNum 403 ->
     exists p,
       fst (projects_findOne_owned (parseInt_param (param req "project_id"))
              (Users.id u) db) = Some p /\
       Users.id (Projects.user p) <> Users.id u).
Proof.
  intros Hu Hfl. split; [|split].
  - intros Hother. run_handler. rewrite Hu, Hfl.
    rewrite find_none_intro; [reflexivity|].
    intros p Hp. destruct (id_is _ (Projects.id p)) eqn:E; [|reflexivity].
    cbn. apply String.eqb_neq. now apply Hother.
  - intros p Hp Hne. run_handler. rewrite Hu, Hfl.
    unfold projects_findOne_owned in Hp. cbn [fst] in Hp. rewrite Hp.
    apply String.eqb_neq in Hne. now rewrite Hne.
  - intros e. now apply forbidden_only_on_mismatch.
Qed.

(** C10.  [updateProject] never changes the category of a project: for
    every update request, whatever its body holds (a [category_id]
    included) and whatever the outcome, every row of the project table has
    the category it had before. *)
Theorem updateProject_keeps_category fl req db :
  primary_keys db ->
  map (fun r => (Projects.id r, Projects.category r))
      (projects (snd (updateProject fl req db)))
  = map (fun r => (Projects.id r, Projects.category r)) (projects db).
Proof.
  intros Hpk.
  destruct (updateProject_projects fl req db) as [[-> _]|(u & p & _ & Hp & ->)];
    [reflexivity|].
  unfold projects_findOne_owned in Hp. cbn [fst] in Hp.
  apply find_some in Hp as [Hin _].
  now apply rewritten_category with (p := p).
Qed.

(** C3.  For every update request by the owner of a project, whatever the
    outcome, each of the nine scalar fields either keeps its prior value
    or has its key present in the body and holds the value assigned from
    it, [total_amount] as the number [Number(total_amount)]: a field
    changes only if its key is present, and a field whose key is absent
    keeps its prior value.  Once the handler has answered, every field
    whose value in the body is not [undefined] holds the assigned value. *)
Theorem updateProject_partial_update fl req db u n p :
  user req = Some u ->
  parseInt_param (param req "project_id") = Some n ->
  project_by_id n db = Some p ->
  Projects.user_id p = Users.id u ->
  exists p',
    project_by_id n (snd (updateProject fl req db)) = Some p' /\
    (forall F, body_has (body req) (key F) = false -> field F p' = field F p) /\
    (forall F, field F p' <> field F p -> body_has (body req) (key F) = true) /\
    (forall F, field F p' = field F p \/
               (body_has (body req) (key F) = true /\
                field F p' = assigned F (prop (body req) (key F)))) /\
    (forall r, fst (updateProject fl req db) = Responded r ->
       forall F, prop (body req) (key F) <> JUndefined ->
                 field F p' = assigned F (prop (body req) (key F))).
Proof.
  intros Hu Hkey Hp Howner.
  pose proof (owned_lookup req db n p u Hkey Hp Howner) as Hfound.
  destruct (updateProject_projects fl req db)
    as [[Hsame Hno]|(u' & q & Hu' & Hq & Hnew)].
  - exists p. unfold project_by_id. rewrite Hsame. split; [exact Hp|].
    split; [reflexivity|]. split; [intros F Hc; now destruct Hc|].
    split; [now left|].
    intros r Hr. now destruct (Hno r).
  - assert (u' = u) as -> by congruence.
    assert (q = p) as -> by congruence.
    assert (Hkeep : forall F, body_has (body req) (key F) = false ->
                              field F (apply_fields (body req) p) = field F p).
    { intros F Habs. apply apply_fields_absent. now apply absent_reads_undefined. }
    exists (apply_fields (body req) p). unfold project_by_id. rewrite Hnew.
    split.
    { apply find_rewritten with (p := p); [exact Hp|].
      cbn. now apply found_in_store in Hp. }
    split; [exact Hkeep|].
    split.
    { intros F Hchg. destruct (body_has (body req) (key F)) eqn:E; [reflexivity|].
      destruct Hchg. now apply Hkeep. }
    split.
    { intros F. destruct (body_has (body req) (key F)) eqn:E; [|left; now apply Hkeep].
      destruct (apply_fields_cases (body req) p F) as [Hc|Hc]; [now left|right].
      now split. }
    intros r _ F Hpres. now apply apply_fields_present.
Qed.

Lemma map_result_new_plan (project : Projects.row) (plans : list JsVal) :
  Forall (fun plan => nullish plan = false) plans ->
  map_result (new_plan project) plans
  = Ok (map (fun plan => {| ProjectPlans.draft := replacement plan;
                            ProjectPlans.project := project |}) plans).
Proof.
  induction 1 as [|plan plans Hplan _ IH]; cbn; [reflexivity|].
  unfold new_plan at 1. rewrite Hplan, IH. reflexivity.
Qed.

Lemma stored_from_data (n : Z) (es : list ProjectPlans.entity) :
  map ProjectPlans.data (stored_from n es) = map ProjectPlans.draft es.
Proof.
  revert n. induction es as [|e es IH]; intros n; cbn; [reflexivity|].
  now rewrite IH.
Qed.

Lemma stored_from_length (n : Z) (es : list ProjectPlans.entity) :
  List.length (stored_from n es) = List.length es.
Proof.
  revert n. induction es as [|e es IH]; intros n; cbn; [reflexivity|].
  now rewrite IH.
Qed.

Lemma filter_stored_from (n k : Z) (es : list ProjectPlans.entity) :
  Forall (fun e => Projects.id (ProjectPlans.project e) = n) es ->
  filter (fun pl => ProjectPlans.project_id pl =? n) (stored_from k es)
  = stored_from k es.
Proof.
  intros Hall. revert k. induction Hall as [|e es He _ IH]; intros k; cbn;
    [reflexivity|].
  rewrite He, Z.eqb_refl, IH. reflexivity.
Qed.

Lemma filter_out_then_in {A} (f : A -> bool) (l : list A) :
  filter f (filter (fun x => negb (f x)) l) = [].
Proof.
  induction l as [|a l IH]; cbn; [reflexivity|].
  destruct (f a) eqn:E; cbn; [exact IH|]. now rewrite E.
Qed.

Lemma has_plans_has_body (b : JsVal) (plans : list JsVal) :
  prop b "plans" = JArr plans -> nullish b = false.
Proof. destruct b; cbn; congruence. Qed.

(** C2, amended.  For every update request by the owner whose body holds a
    [plans] array of elements that are neither [null] nor [undefined], and with no
    repository call rejected, [updateProject] answers 200 and the plan
    table is the old one without the plans of that project, followed by one
    new plan per element of the array, in order: the project's plans are
    exactly the new ones.  Each new plan has the amount of its element as a
    number and its quantity as a number, 0 when the given quantity is
    falsy. *)
Theorem updateProject_replaces_plans fl req db u n p plans :
  projects_find fl = None -> plans_delete fl = None ->
  plans_save fl = None -> projects_save fl = None ->
  user req = Some u ->
  parseInt_param (param req "project_id") = Some n ->
  project_by_id n db = Some p ->
  Projects.user_id p = Users.id u ->
  Users.id (Projects.user p) = Users.id u ->
  prop (body req) "plans" = JArr plans ->
  Forall (fun plan => nullish plan = false) plans ->
  exists r rows db',
    updateProject fl req db = (Responded r, db') /\
    code r = JNum 200 /\
    projectPlans db'
    = (filter (fun pl => negb (ProjectPlans.project_id pl =? n)) (projectPlans db)
       ++ rows)%list /\
    plans_of (Some n) db' = rows /\
    map ProjectPlans.data rows = map replacement plans /\
    List.length rows = List.length plans.
Proof.
  intros Hf1 Hf2 Hf3 Hf4 Hu Hkey Hp Howner Hrel Hplans Hok.
  pose proof (owned_lookup req db n p u Hkey Hp Howner) as Hfound.
  unfold projects_findOne_owned in Hfound. cbn [fst] in Hfound.
  run_handler. rewrite Hu, Hf1, Hf2, Hf3, Hf4.
  rewrite Hfound, Hrel, String.eqb_refl. cbn [negb].
  rewrite (has_plans_has_body _ _ Hplans), Hplans.
  rewrite map_result_new_plan by exact Hok.
  rewrite Hkey. cbn [id_is projectPlans set_plans next_plan_id].
  do 3 eexists. split; [reflexivity|]. split; [reflexivity|].
  cbn [projectPlans set_projects set_plans].
  split; [reflexivity|].
  assert (Hn : Projects.id p = n) by now apply found_in_store in Hp.
  split.
  { unfold plans_of. cbn [projectPlans set_projects set_plans id_is].
    rewrite filter_app, filter_out_then_in. cbn [app].
    apply filter_stored_from. apply Forall_forall.
    intros e He. apply in_map_iff in He as (plan & <- & _). exact Hn. }
  split.
  { rewrite stored_from_data, map_map. reflexivity. }
  now rewrite stored_from_length, length_map.
Qed.

(** C5.  The replacement of a project's plans is not atomic: there is an
    execution of [updateProject] in which the delete of the existing plans
    goes through, the insert of the new plans is rejected, and the project,
    which had plans before, is left with none. *)
Theorem plan_replace_not_atomic :
  exists (fl : Faults) (req : Request) (db : DB) (n : Z),
    parseInt_param (param req "project_id") = Some n /\
    plans_of (Some n) db <> [] /\
    plans_delete fl = None /\
    plans_save fl <> None /\
    (exists e, fst (updateProject fl req db) = Forwarded e) /\
    plans_of (Some n) (snd (updateProject fl req db)) = [].
Proof.
  exists Sample.insert_fails.
  exists (Sample.patch
            (JObj [("plans", JArr [JObj [("plan_name", JStr "early bird");
                                         ("amount", JNum 50)]])])
            Sample.alice).
  exists Sample.db, 1.
  split; [reflexivity|]. split; [discriminate|]. split; [reflexivity|].
  split; [discriminate|]. split; [eexists; reflexivity|reflexivity].
Qed.

End UpdateProject.

(** C2: the owner sends a [plans] array whose one element is [null]; the
    three plans of the project are deleted, the handler throws while it
    builds the new plans, and no plan is inserted. *)
Lemma updateProject_null_plan :
  let req := Sample.patch (JObj [("plans", JArr [JNull])]) Sample.alice in
  isArray (prop (body req) "plans") = true /\
  List.length (plans_of (Some 1) Sample.db) = 3%nat /\
  (exists e, fst (@updateProject Sample.runtime no_faults req Sample.db) = Forwarded e) /\
  plans_of (Some 1) (snd (@updateProject Sample.runtime no_faults req Sample.db)) = [].
Proof.
  cbv zeta. split; [reflexivity|]. split; [reflexivity|].
  split; [eexists; reflexivity|reflexivity].
Qed.

(** C1: Bob, who does not own the lamp project, asks to update it; the
    handler forwards the 400 "not found" error and the client is sent 400,
    not 403. *)
Lemma updateProject_non_owner_is_400 :
  let req := Sample.patch (JObj [("title", JStr "Mine now")]) Sample.bob in
  Users.id Sample.bob <> Projects.user_id Sample.lamp /\
  Users.id Sample.bob <> Users.id (Projects.user Sample.lamp) /\
  exists e r,
    @updateProject Sample.runtime no_faults req Sample.db = (Forwarded e, Sample.db) /\
    status e = JNum 400 /\
    served (Forwarded e) req = Sent r /\
    code r = JNum 400 /\
    code r <> JNum 403.
Proof.
  cbv zeta. split; [discriminate|]. split; [discriminate|].
  do 2 eexists. split; [reflexivity|]. split; [reflexivity|].
  split; [reflexivity|]. split; [reflexivity|].
  apply JNum_neq; reflexivity.
Qed.

Lemma updateProject_non_owner_witness :
  (user (Sample.patch (JObj [("title", JStr "Mine now")]) Sample.bob)
   = Some Sample.bob /\
   @updateProject Sample.runtime no_faults
     (Sample.patch (JObj [("title", JStr "Mine now")]) Sample.bob) Sample.db
   = (Forwarded (appError 400 (JStr "找不到提案")), Sample.db)) /\
  @updateProject Sample.runtime no_faults
    (Sample.patch (JObj [("title", JStr "Mine now")]) Sample.bob) Sample.drifted_db
  = (Forwarded (appError 403 (JStr "你沒有修改此提案的權限")), Sample.drifted_db).
Proof.
  split; [split; [reflexivity|]|].
  - apply (proj1 (@updateProject_non_owner Sample.runtime no_faults
                    (Sample.patch (JObj [("title", JStr "Mine now")]) Sample.bob)
                    Sample.db Sample.bob eq_refl eq_refl)).
    intros p [<-|[]] _. discriminate.
  - apply (proj1 (proj2 (@updateProject_non_owner Sample.runtime no_faults
                    (Sample.patch (JObj [("title", JStr "Mine now")]) Sample.bob)
                    Sample.drifted_db Sample.bob eq_refl eq_refl))
                 Sample.drifted_lamp eq_refl).
    discriminate.
Defined.

Lemma updateProject_keeps_category_witness :
  let req := Sample.patch (JObj [("category_id", JNum 2); ("title", JStr "Lamp II")])
                          Sample.alice in
  primary_keys Sample.db /\
  map (fun r => (Projects.id r, Projects.category r))
      (projects (snd (@updateProject Sample.runtime no_faults req Sample.db)))
  = [(1, Sample.tech)].
Proof.
  assert (Hpk : primary_keys Sample.db).
  { unfold primary_keys. cbn. constructor; [intros []|constructor]. }
  split; [exact Hpk|].
  exact (@updateProject_keeps_category Sample.runtime no_faults
           (Sample.patch (JObj [("category_id", JNum 2); ("title", JStr "Lamp II")])
                         Sample.alice)
           Sample.db Hpk).
Defined.

Lemma updateProject_partial_update_witness :
  let req := Sample.patch (JObj [("title", JStr "Lamp II")]) Sample.alice in
  user req = Some Sample.alice /\
  parseInt_param (param req "project_id") = Some 1 /\
  project_by_id 1 Sample.db = Some Sample.lamp /\
  Projects.user_id Sample.lamp = Users.id Sample.alice /\
  exists p',
    project_by_id 1 (snd (@updateProject Sample.runtime no_faults req Sample.db))
    = Some p' /\
    Projects.summary p' = Projects.summary Sample.lamp /\
    Projects.total_amount p' = Projects.total_amount Sample.lamp.
Proof.
  repeat (split; [reflexivity|]).
  destruct (@updateProject_partial_update Sample.runtime no_faults
              (Sample.patch (JObj [("title", JStr "Lamp II")]) Sample.alice)
              Sample.db Sample.alice 1 Sample.lamp
              eq_refl eq_refl eq_refl eq_refl)
    as (p' & Hp' & Habsent & _).
  exists p'. split; [exact Hp'|]. split.
  - exact (Habsent Summary eq_refl).
  - exact (Habsent TotalAmount eq_refl).
Defined.

Lemma updateProject_replaces_plans_witness :
  let plans := [JObj [("plan_name", JStr "early bird"); ("amount", JStr "50")];
                JObj [("plan_name", JStr "patron"); ("amount", JNum 500);
                      ("quantity", JNum 3)]] in
  let req := Sample.patch (JObj [("plans", JArr plans)]) Sample.alice in
  prop (body req) "plans" = JArr plans /\
  Forall (fun plan => nullish plan = false) plans /\
  exists r rows db',
    @updateProject Sample.runtime no_faults req Sample.db = (Responded r, db') /\
    code r = JNum 200 /\
    plans_of (Some 1) db' = rows /\
    List.length rows = 2%nat.
Proof.
  cbv zeta. split; [reflexivity|].
  assert (Hok : Forall (fun plan => nullish plan = false)
                  [JObj [("plan_name", JStr "early bird"); ("amount", JStr "50")];
                   JObj [("plan_name", JStr "patron"); ("amount", JNum 500);
                         ("quantity", JNum 3)]]).
  { repeat constructor. }
  split; [exact Hok|].
  destruct (@updateProject_replaces_plans Sample.runtime no_faults
              (Sample.patch
                 (JObj [("plans",
                         JArr [JObj [("plan_name", JStr "early bird");
                                     ("amount", JStr "50")];
                               JObj [("plan_name", JStr "patron");
                                     ("amount", JNum 500);
                                     ("quantity", JNum 3)]])])
                 Sample.alice)
              Sample.db Sample.alice 1 Sample.lamp _
              eq_refl eq_refl eq_refl eq_refl
              eq_refl eq_refl eq_refl eq_refl eq_refl eq_refl Hok)
    as (r & rows & db' & Hr & Hc & _ & Hp & _ & Hl).
  exists r, rows, db'. auto.
Defined.

(* ================================================================== *)
(** ** Further properties of the handlers *)

(** *** Project creation beyond the required-field check *)

Lemma or_else_truthy (a b : JsVal) : truthy b = true -> truthy (or_else a b) = true.
Proof. unfold or_else. destruct (truthy a) eqn:E; auto. Qed.

Lemma append_step (a : string) (c : ascii) (b : string) :
  ((a ++ String c "") ++ b)%string = (a ++ String c b)%string.
Proof. induction a as [|x a IH]; cbn; [reflexivity|]. now rewrite IH. Qed.

Lemma append_empty (a : string) : (a ++ "")%string = a.
Proof. induction a as [|x a IH]; cbn; [reflexivity|]. now rewrite IH. Qed.

Lemma split_spaceless (cur w : string) :
  spaceless w = true -> split_space_aux cur w = [(cur ++ w)%string].
Proof.
  revert cur. induction w as [|c w IH]; intros cur; cbn.
  - now rewrite append_empty.
  - intros Hw. apply andb_true_iff in Hw as [Hc Hw].
    apply negb_true_iff in Hc. rewrite Hc, IH by exact Hw.
    now rewrite append_step.
Qed.

Lemma split_first_word (cur w rest : string) :
  spaceless w = true ->
  split_space_aux cur (w ++ String " " rest)
  = (cur ++ w)%string :: split_space_aux "" rest.
Proof.
  revert cur. induction w as [|c w IH]; intros cur; cbn.
  - now rewrite append_empty.
  - intros Hw. apply andb_true_iff in Hw as [Hc Hw].
    apply negb_true_iff in Hc. rewrite Hc, IH by exact Hw.
    now rewrite append_step.
Qed.

(** X1.  The token that [createProject] reads from the authorization
    header is its second space-separated word, whatever the first word is:
    the scheme is not compared with "Bearer".  A header of one word yields
    no token. *)
Theorem bearer_token_is_second_word (w t : string) :
  spaceless w = true -> spaceless t = true ->
  bearer_token (Some (w ++ " " ++ t)) = JStr t /\
  bearer_token (Some w) = JUndefined.
Proof.
  intros Hw Ht. unfold bearer_token, split_space. split.
  - change (w ++ " " ++ t)%string with (w ++ String " " t)%string.
    rewrite split_first_word by exact Hw.
    rewrite split_spaceless by exact Ht. reflexivity.
  - rewrite split_spaceless by exact Hw. reflexivity.
Qed.

Lemma bearer_token_is_second_word_witness :
  bearer_token (Some "Basic t-alice") = JStr "t-alice" /\
  bearer_token (Some "Basic") = JUndefined.
Proof.
  exact (bearer_token_is_second_word "Basic" "t-alice" eq_refl eq_refl).
Defined.

Section CreateProjectMore.
Context `{Runtime}.

(** X2.  When every required field is truthy, a request without a usable
    token (no authorization header, a header of one word, an empty second
    word) is answered 401 "no valid token", and a request whose token does
    not verify is answered 401 "invalid token"; the store is not touched
    and no repository is consulted. *)
Theorem createProject_requires_token fl req db :
  nullish (body req) = false ->
  falsy_fields (body req) = [] ->
  (truthy (bearer_token (authorization req)) = false ->
   createProject fl req db
   = (Responded (json 401 (JObj [("status", JBool false);
                                  ("message", JStr "未提供有效的 token")])), db)) /\
  (forall t,
     bearer_token (authorization req) = JStr t -> t <> "" ->
     jwt_verify t = None ->
     createProject fl req db
     = (Responded (json 401 (JObj [("status", JBool false);
                                    ("message", JStr "無效的 token")])), db)).
Proof.
  intros Hb Hm. split.
  - intros Htok. run_create. rewrite Hb. fold (falsy_fields (body req)).
    rewrite Hm. cbn [List.length Z.of_nat Z.ltb Z.compare].
    destruct (bearer_token (authorization req)) as [ | | | |[|c t]| | ];
      try reflexivity; discriminate.
  - intros t Ht Hne Hv. run_create. rewrite Hb. fold (falsy_fields (body req)).
    rewrite Hm, Ht. cbn [List.length Z.of_nat Z.ltb Z.compare].
    destruct t as [|c t]; [congruence|]. now rewrite Hv.
Qed.

(** X3.  With every required field truthy, a token that verifies, the
    decoded user and the requested category found and no repository call
    rejected, [createProject] appends exactly one project, whose identifier
    is the store's next one, whose fields are the body's values as given
    (no coercion), and which is linked to that user and that category; it
    answers 200 with the new identifier and leaves users, categories and
    plans as they were. *)
Theorem createProject_inserts_one fl req db t decoded user category :
  users_find fl = None -> categories_find fl = None -> projects_save fl = None ->
  nullish (body req) = false ->
  falsy_fields (body req) = [] ->
  bearer_token (authorization req) = JStr t -> t <> "" ->
  jwt_verify t = Some decoded ->
  fst (users_findOneBy (prop decoded "id") db) = Some user ->
  fst (categories_findOneBy (prop (body req) "category_id") db) = Some category ->
  exists p db',
    createProject fl req db
    = (Responded (json 200 (JObj [("status", JBool true);
                                   ("message", JStr "專案建立成功");
                                   ("data", JObj [("project_id",
                                                   JNum (num_of_Z (next_project_id db)))])])),
       db') /\
    projects db' = (projects db ++ [p])%list /\
    Projects.id p = next_project_id db /\
    (forall F, field F p = prop (body req) (key F)) /\
    Projects.category p = category /\
    Projects.user p = user /\
    Projects.user_id p = Users.id user /\
    next_project_id db' = next_project_id db + 1 /\
    users db' = users db /\ categories db' = categories db /\
    projectPlans db' = projectPlans db /\ next_plan_id db' = next_plan_id db.
Proof.
  intros Hf1 Hf2 Hf3 Hb Hm Ht Hne Hv Hu Hc.
  unfold users_findOneBy in Hu. unfold categories_findOneBy in Hc.
  cbn [fst] in Hu, Hc.
  run_create. rewrite Hb. fold (falsy_fields (body req)).
  rewrite Hm, Ht. cbn [List.length Z.of_nat Z.ltb Z.compare].
  destruct t as [|c t]; [congruence|].
  rewrite Hv, Hf1, Hu, Hf2, Hc, Hf3.
  do 2 eexists. split; [reflexivity|].
  cbn [projects set_projects next_project_id users categories projectPlans
       next_plan_id Projects.id Projects.category Projects.user Projects.user_id].
  split; [reflexivity|]. split; [reflexivity|].
  split; [intros F; destruct F; reflexivity|].
  repeat (split; [reflexivity|]). reflexivity.
Qed.

(** X4.  Whatever the request and whichever repository calls are rejected,
    [createProject] either leaves the store exactly as it was, or answers
    200 after appending one project that refers to a user and to a
    category of the store, with the owner column equal to that user's
    identifier; it never touches the plans. *)
Theorem createProject_store_frame fl req db :
  snd (createProject fl req db) = db \/
  exists p r,
    fst (createProject fl req db) = Responded r /\ code r = JNum 200 /\
    projects (snd (createProject fl req db)) = (projects db ++ [p])%list /\
    In (Projects.user p) (users db) /\
    In (Projects.category p) (categories db) /\
    Projects.user_id p = Users.id (Projects.user p) /\
    users (snd (createProject fl req db)) = users db /\
    categories (snd (createProject fl req db)) = categories db /\
    projectPlans (snd (createProject fl req db)) = projectPlans db.
Proof.
  run_create.
  repeat (step; cbn [fst snd]); try (left; reflexivity).
  all: right; do 2 eexists; split; [reflexivity|]; split; [reflexivity|].
  all: cbn [projects set_projects users categories projectPlans
            Projects.user Projects.category Projects.user_id].
  all: split; [reflexivity|].
  all: repeat match goal with
              | Hf : find _ _ = Some _ |- _ =>
                  apply find_some in Hf; destruct Hf as [Hf _]
              end.
  all: repeat split; assumption.
Qed.

(** X5.  Every error that [createProject] hands to [next] carries status
    400, also when it comes from a rejected repository call or from a
    request without a body, and the store is unchanged then. *)
Theorem createProject_forwards_only_400 fl req db e :
  fst (createProject fl req db) = Forwarded e ->
  status e = JNum 400 /\ snd (createProject fl req db) = db.
Proof.
  run_create.
  repeat (step; cbn [fst snd]); intros [= <-]; split; reflexivity.
Qed.

End CreateProjectMore.

Lemma createProject_requires_token_witness :
  @createProject Sample.runtime no_faults (Fixtures.create_with None) Sample.db
  = (Responded (json 401 (JObj [("status", JBool false);
                                 ("message", JStr "未提供有效的 token")])), Sample.db) /\
  @createProject Sample.runtime no_faults
    (Fixtures.create_with (Some "Bearer t-mallory")) Sample.db
  = (Responded (json 401 (JObj [("status", JBool false);
                                 ("message", JStr "無效的 token")])), Sample.db).
Proof.
  split.
  - exact (proj1 (@createProject_requires_token Sample.runtime no_faults
                    (Fixtures.create_with None) Sample.db eq_refl eq_refl)
                 eq_refl).
  - apply (proj2 (@createProject_requires_token Sample.runtime no_faults
                    (Fixtures.create_with (Some "Bearer t-mallory")) Sample.db
                    eq_refl eq_refl) "t-mallory" eq_refl); [discriminate|reflexivity].
Defined.

Lemma createProject_inserts_one_witness :
  exists p db',
    fst (@createProject Sample.runtime no_faults Fixtures.create_request Sample.db)
    = Responded (json 200 (JObj [("status", JBool true);
                                  ("message", JStr "專案建立成功");
                                  ("data", JObj [("project_id", JNum 2)])])) /\
    snd (@createProject Sample.runtime no_faults Fixtures.create_request Sample.db)
    = db' /\
    projects db' = [Sample.lamp; p] /\
    Projects.title p = JStr "Kettle" /\
    Projects.user p = Sample.alice /\ Projects.category p = Sample.tech.
Proof.
  destruct (@createProject_inserts_one Sample.runtime no_faults
              Fixtures.create_request Sample.db "t-alice"
              (JObj [("id", JStr "alice")]) Sample.alice Sample.tech
              eq_refl eq_refl eq_refl eq_refl eq_refl eq_refl
              ltac:(discriminate) eq_refl eq_refl eq_refl)
    as (p & db' & Hr & Hp & _ & Hfields & Hc & Hu & _).
  exists p, db'. rewrite Hr. cbn [fst snd].
  split; [reflexivity|]. split; [reflexivity|]. split; [exact Hp|].
  split; [exact (Hfields Title)|]. now split.
Defined.

Lemma createProject_forwards_only_400_witness :
  exists e,
    fst (@createProject Sample.runtime Fixtures.users_down
           Fixtures.create_request Sample.db) = Forwarded e /\
    status e = JNum 400 /\ message e = JStr "db down".
Proof.
  eexists. split; [reflexivity|]. split; [|reflexivity].
  exact (proj1 (@createProject_forwards_only_400 Sample.runtime Fixtures.users_down
                  Fixtures.create_request Sample.db _ eq_refl)).
Defined.

(* ------------------------------------------------------------------ *)
(** *** Adding a plan, reading a project *)

(** X6.  Every error that [createProjectPlan] hands to [next] carries
    status 500, whether it comes from a body without a plan or from a
    rejected repository call, and nothing has been stored then. *)
Theorem createProjectPlan_forwards_only_500 fl req db e :
  fst (createProjectPlan fl req db) = Forwarded e ->
  status e = JNum 500 /\ snd (createProjectPlan fl req db) = db.
Proof.
  run_plan.
  repeat (step; cbn [fst snd]); intros [= <-]; split; reflexivity.
Qed.

Lemma createProjectPlan_forwards_only_500_witness :
  exists e,
    fst (createProjectPlan Sample.insert_fails
           (Sample.request "POST" "/api/v1/projects/1/plans" [("id", "1")]
              (JObj [("plans", JObj [("plan_name", JStr "gold")])]) None)
           Sample.db) = Forwarded e /\
    status e = JNum 500 /\ message e = JStr "insert failed" /\
    snd (createProjectPlan Sample.insert_fails
           (Sample.request "POST" "/api/v1/projects/1/plans" [("id", "1")]
              (JObj [("plans", JObj [("plan_name", JStr "gold")])]) None)
           Sample.db) = Sample.db.
Proof.
  eexists. split; [reflexivity|].
  destruct (createProjectPlan_forwards_only_500 Sample.insert_fails
              (Sample.request "POST" "/api/v1/projects/1/plans" [("id", "1")]
                 (JObj [("plans", JObj [("plan_name", JStr "gold")])]) None)
              Sample.db _ eq_refl) as [Hs Hdb].
  split; [exact Hs|]. split; [reflexivity|exact Hdb].
Defined.

(** X7.  [createProjectPlan] never changes or removes what is stored: the
    users, categories and projects are as before, the plans that existed
    are all kept in place, and at most one plan is added after them, which
    happens only together with the 201 answer; the added plan holds the
    six properties of the body's plan as given, without coercion. *)
Theorem createProjectPlan_store_frame fl req db :
  users (snd (createProjectPlan fl req db)) = users db /\
  categories (snd (createProjectPlan fl req db)) = categories db /\
  projects (snd (createProjectPlan fl req db)) = projects db /\
  (projectPlans (snd (createProjectPlan fl req db)) = projectPlans db \/
   exists row r,
     projectPlans (snd (createProjectPlan fl req db))
     = (projectPlans db ++ [row])%list /\
     ProjectPlans.plan_id row = next_plan_id db /\
     ProjectPlans.data row = plan_fields (prop (body req) "plans") /\
     fst (createProjectPlan fl req db) = Responded r /\ code r = JNum 201).
Proof.
  run_plan. unfold get_prop. cbn [stored_from].
  repeat (step; cbn [fst snd users categories projects projectPlans set_plans]).
  all: repeat (split; [reflexivity|]).
  all: try (left; reflexivity).
  all: right; do 2 eexists; repeat (split; [reflexivity|]); reflexivity.
Qed.

(** X8.  [getProject] never changes the store; it answers with 200 or not
    at all; and when the lookup is rejected it forwards the very error of
    the rejection, so the status the client sees is that error's own or
    500. *)
Theorem getProject_reads_only fl req db :
  snd (getProject fl req db) = db /\
  (forall r, fst (getProject fl req db) = Responded r -> code r = JNum 200) /\
  (forall e, projects_find fl = Some e -> fst (getProject fl req db) = Forwarded e).
Proof.
  run_get. split; [|split].
  - repeat (step; cbn [fst snd]); try reflexivity.
    all: match goal with Hr : (_, _) = (_, _) |- _ => now inversion Hr end.
  - intros r. repeat (step; cbn [fst snd]); intros [= <-]; reflexivity.
  - intros e ->. reflexivity.
Qed.

(** X9.  A plan added by [createProjectPlan] shows in a following
    [getProject] of the same project: when the first answers 201 for the
    project with identifier [n] and the lookup of the second is not
    rejected, the second answers 200 and the [plans] array of its answer
    has one element more than the project had plans before. *)
Theorem created_plan_is_listed fl fl' req req' db n r :
  parseInt_param (param req "id") = Some n ->
  parseInt_param (param req' "project_id") = Some n ->
  projects_find fl' = None ->
  fst (createProjectPlan fl req db) = Responded r -> code r = JNum 201 ->
  exists r' listed,
    fst (getProject fl' req' (snd (createProjectPlan fl req db))) = Responded r' /\
    code r' = JNum 200 /\
    prop (prop (payload r') "data") "plans" = JArr listed /\
    List.length listed = S (List.length (plans_of (Some n) db)).
Proof.
  intros Hkey Hkey' Hfl'.
  run_plan. unfold get_prop. rewrite Hkey.
  destruct (nullish (body req)); cbn [fst snd]; [discriminate|].
  destruct (nullish (prop (body req) "plans")); cbn [fst snd]; [discriminate|].
  destruct (projects_find fl); cbn [fst snd]; [discriminate|].
  destruct (find _ (projects db)) as [p|] eqn:Hp; cbn [fst snd].
  2: { intros [= <-] Hc. exfalso. revert Hc. apply JNum_neq; reflexivity. }
  destruct (plans_save fl); cbn [fst snd]; [discriminate|].
  intros _ _. run_get. rewrite Hkey', Hfl'.
  cbn [projects set_plans]. rewrite Hp. cbn [option_map fst].
  do 2 eexists. split; [reflexivity|]. split; [reflexivity|].
  split; [reflexivity|].
  rewrite length_map. cbn [projectPlans_read].
  rewrite (Permutation_length (sort_perm _)).
  unfold plans_of. cbn [projectPlans set_plans stored_from].
  rewrite filter_app, length_app. cbn [filter ProjectPlans.project_id ProjectPlans.project].
  apply find_some in Hp as [_ Hid]. cbn [id_is] in Hid |- *. rewrite Hid.
  cbn [List.length]. lia.
Qed.

Lemma created_plan_is_listed_witness :
  let req := Sample.request "POST" "/api/v1/projects/1/plans" [("id", "1")]
               (JObj [("plans", JObj [("plan_name", JStr "gold");
                                       ("amount", JNum 300)])]) None in
  let req' := Sample.request "GET" "/api/v1/projects/1" [("project_id", "1")]
                JUndefined None in
  exists r' listed,
    fst (getProject no_faults req' (snd (createProjectPlan no_faults req Sample.db)))
    = Responded r' /\
    code r' = JNum 200 /\
    prop (prop (payload r') "data") "plans" = JArr listed /\
    List.length listed = 4%nat.
Proof.
  exact (created_plan_is_listed no_faults no_faults
           (Sample.request "POST" "/api/v1/projects/1/plans" [("id", "1")]
              (JObj [("plans", JObj [("plan_name", JStr "gold");
                                      ("amount", JNum 300)])]) None)
           (Sample.request "GET" "/api/v1/projects/1" [("project_id", "1")]
              JUndefined None)
           Sample.db 1 _ eq_refl eq_refl eq_refl eq_refl eq_refl).
Defined.

(* ------------------------------------------------------------------ *)
(** *** Updating a project: what is left alone *)

Lemma new_plan_project `{Runtime} (P : Projects.row) (plans : list JsVal)
      (es : list ProjectPlans.entity) :
  map_result (new_plan P) plans = Ok es ->
  Forall (fun e => ProjectPlans.project e = P) es.
Proof.
  revert es. induction plans as [|plan plans IH]; cbn; intros es.
  - intros [= <-]. constructor.
  - unfold new_plan at 1. destruct (nullish plan); [discriminate|].
    destruct (map_result _ plans) as [bs|]; [|discriminate].
    intros [= <-]. constructor; [reflexivity|]. now apply IH.
Qed.

Lemma filter_other_project (key : option Z) (m : Z) (pls : list ProjectPlans.row) :
  key <> Some m ->
  filter (fun pl => id_is (Some m) (ProjectPlans.project_id pl))
         (filter (fun pl => negb (id_is key (ProjectPlans.project_id pl))) pls)
  = filter (fun pl => id_is (Some m) (ProjectPlans.project_id pl)) pls.
Proof.
  intros Hne. induction pls as [|pl pls IH]; [reflexivity|].
  cbn [filter].
  destruct (id_is key (ProjectPlans.project_id pl)) eqn:Ek; cbn [negb filter].
  - rewrite IH.
    destruct (id_is (Some m) (ProjectPlans.project_id pl)) eqn:Em; [|reflexivity].
    exfalso. apply Hne. destruct key as [k|]; cbn in Ek, Em; [|discriminate].
    apply Z.eqb_eq in Ek, Em. congruence.
  - now rewrite IH.
Qed.

Lemma stored_from_other_project (m k : Z) (es : list ProjectPlans.entity) :
  Forall (fun e => Projects.id (ProjectPlans.project e) <> m) es ->
  filter (fun pl => id_is (Some m) (ProjectPlans.project_id pl)) (stored_from k es) = [].
Proof.
  intros Hall. revert k. induction Hall as [|e es He _ IH]; intros k;
    [reflexivity|].
  cbn [stored_from filter ProjectPlans.project_id id_is].
  apply Z.eqb_neq in He. rewrite He. apply IH.
Qed.

Lemma key_of_found (key : option Z) (g : Projects.row -> bool)
      (rows : list Projects.row) (p : Projects.row) :
  find (fun r => id_is key (Projects.id r) && g r) rows = Some p ->
  key = Some (Projects.id p).
Proof.
  intros Hf. apply find_some in Hf as [_ Hf]. apply andb_true_iff in Hf as [Hk _].
  destruct key as [k|]; cbn in Hk; [|discriminate].
  apply Z.eqb_eq in Hk. now subst.
Qed.

Section UpdateProjectMore.
Context `{Runtime}.

(** X10.  Without [req.user] (no authentication middleware ran),
    [updateProject] modifies nothing and forwards an error that carries no
    status, which the error handler sends as 500 with status ["error"]. *)
Theorem updateProject_unauthenticated fl req db :
  user req = None ->
  exists e,
    updateProject fl req db = (Forwarded e, db) /\
    status e = JUndefined /\
    (log req = true ->
     exists text,
       served (Forwarded e) req
       = Sent {| code := JNum 500;
                 payload := JObj [("status", JStr "error"); ("message", text)] |}).
Proof.
  intros Hu. run_handler. rewrite Hu.
  eexists. split; [reflexivity|]. split; [reflexivity|].
  intros Hlog. cbn [served]. unfold errorHandler. rewrite Hlog.
  eexists. reflexivity.
Qed.

(** X11.  [updateProject] never touches the plans of another project: for
    every request, every fault and every identifier [m] other than the one
    of the path, the plans of project [m] are the same, in the same order,
    after the call. *)
Theorem updateProject_other_plans_untouched fl req db m :
  parseInt_param (param req "project_id") <> Some m ->
  plans_of (Some m) (snd (updateProject fl req db)) = plans_of (Some m) db.
Proof.
  intros Hne. run_handler. unfold plans_of.
  repeat (step; cbn [fst snd projectPlans set_plans set_projects]);
    try reflexivity.
  all: try (now apply filter_other_project).
  all: rewrite filter_app, filter_other_project by exact Hne.
  all: rewrite stored_from_other_project; [apply app_nil_r|].
  all: match goal with
       | Hm : map_result _ _ = Ok _, Hf : find _ _ = Some ?q |- _ =>
           apply new_plan_project in Hm; apply key_of_found in Hf;
           eapply Forall_impl; [|exact Hm]
       end.
  all: intros e ->; cbn [Projects.id apply_fields]; congruence.
Qed.

(** X12.  When [req.body.plans] is not an array (absent, an object, a
    string, ...), [updateProject] leaves the whole plan table and the plan
    counter as they were, whatever else the request holds. *)
Theorem updateProject_without_plans_array fl req db :
  isArray (prop (body req) "plans") = false ->
  projectPlans (snd (updateProject fl req db)) = projectPlans db /\
  next_plan_id (snd (updateProject fl req db)) = next_plan_id db.
Proof.
  intros Hna. run_handler.
  destruct (prop (body req) "plans") eqn:Hp; try discriminate Hna.
  all: repeat (step; cbn [fst snd projectPlans next_plan_id set_plans set_projects]).
  all: split; reflexivity.
Qed.

Lemma rewritten_ids (p' : Projects.row) (rows : list Projects.row) :
  map Projects.id (rewritten p' rows) = map Projects.id rows.
Proof.
  unfold rewritten. rewrite map_map. apply map_ext. intros r.
  destruct (Z.eqb_spec (Projects.id r) (Projects.id p')); congruence.
Qed.

Lemma rewritten_keeps (p' r : Projects.row) (rows : list Projects.row) :
  In r rows -> Projects.id r <> Projects.id p' -> In r (rewritten p' rows).
Proof.
  intros Hin Hne. unfold rewritten. apply in_map_iff. exists r.
  apply Z.eqb_neq in Hne. now rewrite Hne.
Qed.

Lemma rewritten_owner (rows : list Projects.row) (p p' : Projects.row) :
  NoDup (map Projects.id rows) -> In p rows ->
  owner_of p' = owner_of p ->
  map owner_of (rewritten p' rows) = map owner_of rows.
Proof.
  intros Hnd Hp Ho. unfold rewritten. rewrite map_map. apply map_ext_in.
  intros r Hr.
  destruct (Z.eqb_spec (Projects.id r) (Projects.id p')) as [E|E]; [|reflexivity].
  assert (Hid : Projects.id p' = Projects.id p) by (unfold owner_of in Ho; congruence).
  rewrite Hid in E. now rewrite (same_id_same_row rows p r Hnd Hp Hr E).
Qed.

(** X13.  [updateProject] never adds, removes or renumbers a project and
    never changes another project: the list of project identifiers, the
    users, the categories and the project counter are the same after every
    call, and every row whose identifier is not the one of the path is
    still in the table, unchanged. *)
Theorem updateProject_other_projects fl req db :
  map Projects.id (projects (snd (updateProject fl req db)))
  = map Projects.id (projects db) /\
  users (snd (updateProject fl req db)) = users db /\
  categories (snd (updateProject fl req db)) = categories db /\
  next_project_id (snd (updateProject fl req db)) = next_project_id db /\
  (forall r, In r (projects db) ->
             id_is (parseInt_param (param req "project_id")) (Projects.id r) = false ->
             In r (projects (snd (updateProject fl req db)))).
Proof.
  split; [|split; [|split; [|split]]].
  - destruct (updateProject_projects fl req db) as [[-> _]|(u & p & _ & _ & ->)];
      [reflexivity|apply rewritten_ids].
  - run_handler.
    repeat (step; cbn [fst snd users set_plans set_projects]); reflexivity.
  - run_handler.
    repeat (step; cbn [fst snd categories set_plans set_projects]); reflexivity.
  - run_handler.
    repeat (step; cbn [fst snd next_project_id set_plans set_projects]); reflexivity.
  - intros r Hr Hk.
    destruct (updateProject_projects fl req db) as [[-> _]|(u & p & _ & Hp & ->)];
      [exact Hr|].
    apply rewritten_keeps; [exact Hr|]. cbn [Projects.id apply_fields].
    unfold projects_findOne_owned in Hp. cbn [fst] in Hp.
    apply key_of_found in Hp. rewrite Hp in Hk. cbn in Hk.
    now apply Z.eqb_neq.
Qed.

(** X14.  [updateProject] never changes who owns a project: in a store
    whose project identifiers are a primary key, every row has the same
    owner relation and the same owner column after the call, whatever the
    body holds. *)
Theorem updateProject_keeps_owner fl req db :
  primary_keys db ->
  map owner_of (projects (snd (updateProject fl req db)))
  = map owner_of (projects db).
Proof.
  intros Hpk.
  destruct (updateProject_projects fl req db) as [[-> _]|(u & p & _ & Hp & ->)];
    [reflexivity|].
  unfold projects_findOne_owned in Hp. cbn [fst] in Hp.
  apply find_some in Hp as [Hin _].
  now apply rewritten_owner with (p := p).
Qed.

(** X15.  The assignments to the project are stored only together with the
    200 answer: whenever [updateProject] does not answer (it forwards an
    error instead), the project table is exactly as before, although the
    plans may already have been replaced. *)
Theorem updateProject_fields_need_success fl req db e :
  fst (updateProject fl req db) = Forwarded e ->
  projects (snd (updateProject fl req db)) = projects db.
Proof.
  intros He.
  destruct (updateProject_projects fl req db) as [[Hs _]|(u & p & _ & _ & Hnew)];
    [exact Hs|].
  revert He Hnew. run_handler.
  repeat (step; cbn [fst snd projects set_plans set_projects]);
    try discriminate; intros; reflexivity.
Qed.

(** X16.  When the owner's request holds a [plans] array of elements that
    are not [null] and only the final save of the project is rejected, the
    plans have been replaced all the same while no field of the project is
    changed: the error of the rejection is forwarded, the project table is
    as before, and the project's plans are the new ones. *)
Theorem updateProject_partial_commit fl req db u n p plans e :
  projects_find fl = None -> plans_delete fl = None -> plans_save fl = None ->
  projects_save fl = Some e ->
  user req = Some u ->
  parseInt_param (param req "project_id") = Some n ->
  project_by_id n db = Some p ->
  Projects.user_id p = Users.id u ->
  Users.id (Projects.user p) = Users.id u ->
  prop (body req) "plans" = JArr plans ->
  Forall (fun plan => nullish plan = false) plans ->
  exists rows db',
    updateProject fl req db = (Forwarded e, db') /\
    projects db' = projects db /\
    plans_of (Some n) db' = rows /\
    map ProjectPlans.data rows = map replacement plans.
Proof.
  intros Hf1 Hf2 Hf3 Hf4 Hu Hkey Hp Howner Hrel Hplans Hok.
  pose proof (owned_lookup req db n p u Hkey Hp Howner) as Hfound.
  unfold projects_findOne_owned in Hfound. cbn [fst] in Hfound.
  run_handler. rewrite Hu, Hf1, Hf2, Hf3, Hf4.
  rewrite Hfound, Hrel, String.eqb_refl. cbn [negb].
  rewrite (has_plans_has_body _ _ Hplans), Hplans.
  rewrite map_result_new_plan by exact Hok.
  rewrite Hkey. cbn [id_is projectPlans set_plans next_plan_id].
  do 2 eexists. split; [reflexivity|].
  cbn [projects projectPlans set_plans].
  split; [reflexivity|].
  assert (Hn : Projects.id p = n) by now apply found_in_store in Hp.
  split.
  { unfold plans_of. cbn [projectPlans set_plans id_is].
    rewrite filter_app, filter_out_then_in. cbn [app].
    apply filter_stored_from. apply Forall_forall.
    intros x Hx. apply in_map_iff in Hx as (plan & <- & _). exact Hn. }
  rewrite stored_from_data, map_map. reflexivity.
Qed.

(** X17.  After an update that replaced the plans, reading the project
    lists as many plans as the request gave: when [updateProject] has
    answered a request of the owner that holds a [plans] array, a
    following [getProject] of the same project answers 200 and the [plans]
    array of its answer has as many elements as the array of the request,
    however many plans the project had before. *)
Theorem replaced_plans_are_listed fl fl' req req' db u n p plans r :
  user req = Some u ->
  parseInt_param (param req "project_id") = Some n ->
  parseInt_param (param req' "project_id") = Some n ->
  project_by_id n db = Some p ->
  Projects.user_id p = Users.id u ->
  prop (body req) "plans" = JArr plans ->
  fst (updateProject fl req db) = Responded r ->
  projects_find fl' = None ->
  exists r' listed,
    fst (getProject fl' req' (snd (updateProject fl req db))) = Responded r' /\
    code r' = JNum 200 /\
    prop (prop (payload r') "data") "plans" = JArr listed /\
    List.length listed = List.length plans.
Proof.
  intros Hu Hkey Hkey' Hp Howner Hplans Hr Hfl'.
  pose proof (owned_lookup req db n p u Hkey Hp Howner) as Hfound.
  unfold projects_findOne_owned in Hfound. cbn [fst] in Hfound.
  assert (Hn : Projects.id p = n) by now apply found_in_store in Hp.
  revert Hr. run_handler. rewrite Hu.
  destruct (projects_find fl); cbn [fst snd]; [discriminate|].
  rewrite Hfound.
  destruct (negb _); cbn [fst snd]; [discriminate|].
  rewrite (has_plans_has_body _ _ Hplans), Hplans.
  destruct (plans_delete fl); cbn [fst snd]; [discriminate|].
  destruct (map_result _ plans) as [es|] eqn:Hes; cbn [fst snd]; [|discriminate].
  destruct (plans_save fl); cbn [fst snd]; [discriminate|].
  destruct (projects_save fl); cbn [fst snd]; [discriminate|].
  intros _. run_get. rewrite Hkey', Hfl'.
  cbn [projects set_projects set_plans].
  pose proof (find_rewritten n (projects db) p (apply_fields (body req) p) Hp Hn)
    as Hafter.
  change (fun p0 : Projects.row => id_is (Some n) (Projects.id p0))
    with (fun r0 : Projects.row => Projects.id r0 =? n).
  rewrite Hafter. cbn [option_map fst].
  do 2 eexists. split; [reflexivity|]. split; [reflexivity|].
  split; [reflexivity|].
  rewrite length_map. cbn [projectPlans_read].
  rewrite (Permutation_length (sort_perm _)).
  unfold plans_of. cbn [projectPlans set_projects set_plans].
  rewrite Hkey. cbn [id_is].
  rewrite filter_app, filter_out_then_in. cbn [app].
  assert (Hall : Forall (fun x => nullish x = false) plans).
  { clear - Hes. revert es Hes. induction plans as [|x plans IH]; intros es; [constructor|].
    cbn. unfold new_plan at 1. destruct (nullish x) eqn:Ex; [discriminate|].
    destruct (map_result _ plans) as [bs|] eqn:Em; [|discriminate].
    intros _. constructor; [exact Ex|]. now apply (IH bs). }
  rewrite map_result_new_plan in Hes by exact Hall. injection Hes as <-.
  rewrite filter_stored_from.
  2: { apply Forall_forall. intros x Hx.
       apply in_map_iff in Hx as (plan & <- & _). exact Hn. }
  cbn [List.app]. rewrite stored_from_length. apply length_map.
Qed.

End UpdateProjectMore.

(* ------------------------------------------------------------------ *)
(** *** The application shell *)

Lemma run_catch_all_answers (l : list Middleware) (req req' : Request) :
  run (l ++ [notFound]) req <> Next req'.
Proof.
  revert req. induction l as [|mw l IH]; intros req; cbn.
  - discriminate.
  - destruct (mw req) as [r| |]; [apply IH|discriminate|discriminate].
Qed.

(** X18.  The application always produces its own answer unless its error
    handler throws: whatever the other middleware and the routers do, no
    request falls through the whole stack to the framework's default 404,
    because the catch-all answers every request that reaches it. *)
Theorem app_never_falls_through (st : Stack) (req : Request) :
  app st req <> FinalHandler None.
Proof.
  unfold app.
  destruct (run (before_catch_all st ++ [notFound]) req) as [r| |e r] eqn:E.
  - now apply run_catch_all_answers in E.
  - discriminate.
  - destruct (errorHandler (Some e) r); discriminate.
Qed.

(** X19.  The error handler never sends a falsy status code or an empty
    message: whenever it answers, for any error (a missing one included),
    the code is truthy, the [status] of the envelope is ["error"] or
    ["failed"], and the message is truthy. *)
Theorem errorHandler_never_falsy (err : option JsError) (req : Request) (r : Response) :
  errorHandler err req = Ok r ->
  truthy (code r) = true /\
  exists label text,
    payload r = JObj [("status", JStr label); ("message", text)] /\
    (label = "error" \/ label = "failed") /\
    truthy text = true.
Proof.
  unfold errorHandler. destruct (negb (log req)); [discriminate|].
  destruct (res_status _) as [accepted|] eqn:Hres; [|discriminate].
  apply res_status_same in Hres as ->.
  intros [= <-]. cbn [code payload]. split.
  - now apply or_else_truthy.
  - do 2 eexists. split; [reflexivity|]. split.
    + destruct (strict_eq _ _); auto.
    + now apply or_else_truthy.
Qed.

Lemma errorHandler_never_falsy_witness :
  exists r,
    errorHandler None (Sample.request "GET" "/" [] JUndefined None) = Ok r /\
    truthy (code r) = true.
Proof.
  eexists. split; [reflexivity|].
  exact (proj1 (errorHandler_never_falsy None
                  (Sample.request "GET" "/" [] JUndefined None) _ eq_refl)).
Defined.

(** X20.  An error raised by the JSON body parser, which is registered
    before the logger, never gets the JSON error envelope: for a request
    that is not a preflight and arrives without a logger, when the parser
    calls [next(err)] the error handler throws on [req.log] and the
    answer is left to the framework's final handler. *)
Theorem body_parser_error_is_not_enveloped (st : Stack) (req : Request) (e : JsError) :
  method req <> "OPTIONS" ->
  log req = false ->
  express_json st req = Fail e req ->
  (exists e', app st req = FinalHandler (Some e')) /\
  (forall r, app st req <> Sent r).
Proof.
  intros Hm Hlog Hj.
  assert (Happ : app st req = FinalHandler (Some (TypeError "error"))).
  { unfold app, before_catch_all. cbn [List.app run]. unfold cors.
    apply String.eqb_neq in Hm. rewrite Hm, Hj.
    unfold errorHandler. rewrite Hlog. reflexivity. }
  rewrite Happ. split; [now eexists|discriminate].
Qed.

Lemma body_parser_error_is_not_enveloped_witness :
  exists e',
    app Fixtures.strict_json_stack (Fixtures.raw_request "POST" "/api/v1/projects")
    = FinalHandler (Some e').
Proof.
  exact (proj1 (body_parser_error_is_not_enveloped Fixtures.strict_json_stack
                  (Fixtures.raw_request "POST" "/api/v1/projects")
                  (appError 400 (JStr "bad JSON"))
                  ltac:(discriminate) eq_refl eq_refl)).
Defined.


(** X22.  The health check answers 200 "OK" to every GET or HEAD request
    for its path that the middleware registered before it pass on, and to
    no other method: a request for the same path with another method that
    reaches it goes on to the catch-all and gets the 404 envelope. *)
Theorem healthcheck_answers (st : Stack) (req req' : Request) :
  run (before_healthcheck st) req = Next req' ->
  path_matches st "/healthcheck" (path req') = true ->
  (method req' = "GET" \/ method req' = "HEAD" ->
   app st req = Sent {| code := JNum 200; payload := JStr "OK" |}) /\
  (method req' <> "GET" -> method req' <> "HEAD" ->
   app st req = Sent not_found_response).
Proof.
  intros Hrun Hpath. unfold app.
  change (before_catch_all st) with (before_healthcheck st ++ [healthcheck st])%list.
  rewrite <- app_assoc. rewrite (run_reaches _ _ _ _ Hrun).
  cbn [List.app run]. unfold healthcheck. rewrite Hpath. split.
  - intros [-> | ->]; reflexivity.
  - intros Hg Hh. apply String.eqb_neq in Hg, Hh. now rewrite Hg, Hh.
Qed.

Lemma healthcheck_answers_witness :
  app Sample.quiet_stack (Fixtures.raw_request "GET" "/healthcheck")
  = Sent {| code := JNum 200; payload := JStr "OK" |} /\
  app Sample.quiet_stack (Fixtures.raw_request "POST" "/healthcheck")
  = Sent not_found_response.
Proof.
  split.
  - apply (proj1 (healthcheck_answers Sample.quiet_stack
                    (Fixtures.raw_request "GET" "/healthcheck") _ eq_refl eq_refl)).
    now left.
  - apply (proj2 (healthcheck_answers Sample.quiet_stack
                    (Fixtures.raw_request "POST" "/healthcheck") _ eq_refl eq_refl));
      discriminate.
Defined.


(* ------------------------------------------------------------------ *)
(** *** The users router *)

Section UsersRoutes.
Variable matches : string -> string -> bool.
Variable h : UsersRouter.Handlers.

Lemma route_miss (verb pattern : string) (chain : list Middleware) (req : Request) :
  UsersRouter.serves verb req && matches pattern (path req) = false ->
  UsersRouter.route matches verb pattern chain req = Next req.
Proof. unfold UsersRouter.route. now intros ->. Qed.

Lemma route_hit (verb pattern : string) (chain : list Middleware) (req : Request) :
  UsersRouter.serves verb req && matches pattern (path req) = true ->
  UsersRouter.route matches verb pattern chain req = run chain req.
Proof. unfold UsersRouter.route. now intros ->. Qed.

(** X23.  The profile and status routes are behind [auth]: for a GET (or
    HEAD) or PATCH request for [/profile], and for a POST request for
    [/status] that is neither a signup nor a signin, whatever [auth]
    answers or raises instead of calling [next()] is the router's result,
    so the controller of the route does not run. *)
Theorem guarded_routes_stop_at_auth (req : Request) :
  (forall req', UsersRouter.auth h req <> Next req') ->
  ((method req = "GET" \/ method req = "HEAD" \/ method req = "PATCH") ->
   matches "/profile" (path req) = true ->
   UsersRouter.router matches h req = UsersRouter.auth h req) /\
  (method req = "POST" ->
   matches "/signup" (path req) = false ->
   matches "/signin" (path req) = false ->
   matches "/status" (path req) = true ->
   UsersRouter.router matches h req = UsersRouter.auth h req).
Proof.
  intros Hauth.
  assert (Hstop : forall c, run [UsersRouter.auth h; c] req = UsersRouter.auth h req).
  { intros c. cbn [run].
    destruct (UsersRouter.auth h req) as [r| |] eqn:Ea;
      try reflexivity; now destruct (Hauth r). }
  unfold UsersRouter.router. split.
  - intros Hm Hp.
    assert (Ho : String.eqb (method req) "OPTIONS" = false)
      by (destruct Hm as [Hm|[Hm|Hm]]; now rewrite Hm).
    rewrite Ho. cbn [UsersRouter.routes run].
    do 3 (rewrite route_miss
            by (destruct Hm as [Hm|[Hm|Hm]]; by_method Hm)).
    destruct Hm as [Hm|[Hm|Hm]].
    + rewrite route_hit by (by_path Hm Hp). rewrite Hstop.
      destruct (UsersRouter.auth h req) as [r| |] eqn:Ea;
        try reflexivity; now destruct (Hauth r).
    + rewrite route_hit by (by_path Hm Hp). rewrite Hstop.
      destruct (UsersRouter.auth h req) as [r| |] eqn:Ea;
        try reflexivity; now destruct (Hauth r).
    + rewrite route_miss by (by_method Hm).
      rewrite route_hit by (by_path Hm Hp). rewrite Hstop.
      destruct (UsersRouter.auth h req) as [r| |] eqn:Ea;
        try reflexivity; now destruct (Hauth r).
  - intros Hm H1 H2 H3. rewrite Hm. cbn [String.eqb Ascii.eqb Bool.eqb].
    cbn [UsersRouter.routes run].
    rewrite route_miss by (by_path Hm H1).
    rewrite route_miss by (by_path Hm H2).
    rewrite route_hit by (by_path Hm H3). rewrite Hstop.
    destruct (UsersRouter.auth h req) as [r| |] eqn:Ea;
      try reflexivity; now destruct (Hauth r).
Qed.

(** X24.  Signing up and signing in do not pass through [auth]: for a POST
    request for [/signup], the router's result is what the signup
    controller does when it answers or raises, and the same holds for
    [/signin] and the login controller when the path is not also a signup
    path; [auth] is not consulted. *)
Theorem open_routes_skip_auth (req : Request) :
  method req = "POST" ->
  (matches "/signup" (path req) = true ->
   (forall req', UsersRouter.postSignup h req <> Next req') ->
   UsersRouter.router matches h req = UsersRouter.postSignup h req) /\
  (matches "/signup" (path req) = false ->
   matches "/signin" (path req) = true ->
   (forall req', UsersRouter.postLogin h req <> Next req') ->
   UsersRouter.router matches h req = UsersRouter.postLogin h req).
Proof.
  intros Hm. unfold UsersRouter.router. rewrite Hm.
  cbn [String.eqb Ascii.eqb Bool.eqb]. cbn [UsersRouter.routes run]. split.
  - intros H1 Hc. rewrite route_hit by (by_path Hm H1). cbn [run].
    destruct (UsersRouter.postSignup h req) as [r| |] eqn:Ea;
      try reflexivity; now destruct (Hc r).
  - intros H1 H2 Hc. rewrite route_miss by (by_path Hm H1).
    rewrite route_hit by (by_path Hm H2). cbn [run].
    destruct (UsersRouter.postLogin h req) as [r| |] eqn:Ea;
      try reflexivity; now destruct (Hc r).
Qed.

(** X25.  The router has routes for POST, GET (with HEAD) and PATCH only: a
    request with any other method except OPTIONS, such as PUT or DELETE,
    is passed on unchanged without running [auth] or any controller, and
    so is a request whose path matches none of the four patterns. *)
Theorem unrouted_requests_pass (req : Request) :
  method req <> "OPTIONS" ->
  ((method req <> "POST" /\ method req <> "GET" /\ method req <> "HEAD" /\
    method req <> "PATCH") \/
   (matches "/signup" (path req) = false /\ matches "/signin" (path req) = false /\
    matches "/status" (path req) = false /\ matches "/profile" (path req) = false)) ->
  UsersRouter.router matches h req = Next req.
Proof.
  intros Ho Hcase. unfold UsersRouter.router.
  apply String.eqb_neq in Ho. rewrite Ho.
  cbn [UsersRouter.routes run].
  assert (Hmiss : forall verb pattern,
            In (verb, pattern)
               [("POST", "/signup"); ("POST", "/signin"); ("POST", "/status");
                ("GET", "/profile"); ("PATCH", "/profile")] ->
            UsersRouter.serves verb req && matches pattern (path req) = false).
  { intros verb pattern Hin.
    destruct Hcase as [(H1 & H2 & H3 & H4)|(H1 & H2 & H3 & H4)].
    - apply String.eqb_neq in H1, H2, H3, H4. unfold UsersRouter.serves.
      cbn [In] in Hin.
      repeat (destruct Hin as [[= <- <-]|Hin]);
        try (now destruct Hin);
        rewrite ?H1, ?H2, ?H3, ?H4; reflexivity.
    - cbn [In] in Hin.
      repeat (destruct Hin as [[= <- <-]|Hin]);
        try (now destruct Hin);
        rewrite ?H1, ?H2, ?H3, ?H4; apply andb_false_r. }
  rewrite !route_miss by (apply Hmiss; cbn [In]; tauto).
  reflexivity.
Qed.

End UsersRoutes.

(* ------------------------------------------------------------------ *)
(** *** The further properties on the sample data *)

Lemma updateProject_unauthenticated_witness :
  exists e,
    @updateProject Sample.runtime no_faults
      (Sample.request "PATCH" "/api/v1/projects/1" [("project_id", "1")]
         (JObj [("title", JStr "Lamp II")]) None)
      Sample.db = (Forwarded e, Sample.db) /\
    status e = JUndefined.
Proof.
  destruct (@updateProject_unauthenticated Sample.runtime no_faults
              (Sample.request "PATCH" "/api/v1/projects/1" [("project_id", "1")]
                 (JObj [("title", JStr "Lamp II")]) None)
              Sample.db eq_refl) as (e & He & Hs & _).
  exists e. now split.
Defined.

Lemma updateProject_other_plans_untouched_witness :
  plans_of (Some 2)
    (snd (@updateProject Sample.runtime no_faults Fixtures.replace_request
            Fixtures.two_projects))
  = [Sample.stored 4 (Sample.tier "steam" 80) 2].
Proof.
  rewrite (@updateProject_other_plans_untouched Sample.runtime no_faults
             Fixtures.replace_request Fixtures.two_projects 2
             ltac:(discriminate)).
  reflexivity.
Defined.

Lemma updateProject_without_plans_array_witness :
  projectPlans
    (snd (@updateProject Sample.runtime no_faults
            (Sample.patch (JObj [("title", JStr "Lamp II");
                                 ("plans", JObj [("plan_name", JStr "solo")])])
                          Sample.alice)
            Sample.db))
  = projectPlans Sample.db.
Proof.
  exact (proj1 (@updateProject_without_plans_array Sample.runtime no_faults
                  (Sample.patch (JObj [("title", JStr "Lamp II");
                                       ("plans", JObj [("plan_name", JStr "solo")])])
                                Sample.alice)
                  Sample.db eq_refl)).
Defined.

Lemma updateProject_keeps_owner_witness :
  primary_keys Fixtures.two_projects /\
  map owner_of
    (projects
       (snd (@updateProject Sample.runtime no_faults
               (Sample.patch (JObj [("user_id", JStr "bob");
                                    ("user", JObj [("id", JStr "bob")]);
                                    ("title", JStr "Lamp II")])
                             Sample.alice)
               Fixtures.two_projects)))
  = [(1, Sample.alice, "alice"); (2, Sample.bob, "bob")].
Proof.
  assert (Hpk : primary_keys Fixtures.two_projects).
  { unfold primary_keys. cbn. repeat constructor; cbn; intuition discriminate. }
  split; [exact Hpk|].
  exact (@updateProject_keeps_owner Sample.runtime no_faults
           (Sample.patch (JObj [("user_id", JStr "bob");
                                ("user", JObj [("id", JStr "bob")]);
                                ("title", JStr "Lamp II")])
                         Sample.alice)
           Fixtures.two_projects Hpk).
Defined.

Lemma updateProject_fields_need_success_witness :
  projects (snd (@updateProject Sample.runtime Sample.insert_fails
                   Fixtures.replace_request Fixtures.two_projects))
  = projects Fixtures.two_projects /\
  plans_of (Some 1)
    (snd (@updateProject Sample.runtime Sample.insert_fails
            Fixtures.replace_request Fixtures.two_projects)) = [].
Proof.
  split; [|reflexivity].
  exact (@updateProject_fields_need_success Sample.runtime Sample.insert_fails
           Fixtures.replace_request Fixtures.two_projects _ eq_refl).
Defined.

Lemma updateProject_partial_commit_witness :
  exists rows db',
    @updateProject Sample.runtime Fixtures.save_fails Fixtures.replace_request
      Fixtures.two_projects
    = (Forwarded (Error "save failed"), db') /\
    projects db' = projects Fixtures.two_projects /\
    plans_of (Some 1) db' = rows /\
    map ProjectPlans.plan_name (map ProjectPlans.data rows)
    = [JStr "early bird"; JStr "patron"].
Proof.
  destruct (@updateProject_partial_commit Sample.runtime Fixtures.save_fails
              Fixtures.replace_request Fixtures.two_projects Sample.alice 1
              Sample.lamp _ (Error "save failed")
              eq_refl eq_refl eq_refl eq_refl eq_refl eq_refl eq_refl eq_refl
              eq_refl eq_refl
              ltac:(repeat constructor))
    as (rows & db' & Hr & Hp & Hpl & Hd).
  exists rows, db'. repeat (split; [assumption|]).
  rewrite Hd. reflexivity.
Defined.

Lemma replaced_plans_are_listed_witness :
  exists r' listed,
    fst (getProject no_faults
           (Sample.request "GET" "/api/v1/projects/1" [("project_id", "1")]
              JUndefined None)
           (snd (@updateProject Sample.runtime no_faults Fixtures.replace_request
                   Fixtures.two_projects)))
    = Responded r' /\
    code r' = JNum 200 /\
    prop (prop (payload r') "data") "plans" = JArr listed /\
    List.length listed = 2%nat.
Proof.
  exact (@replaced_plans_are_listed Sample.runtime no_faults no_faults
           Fixtures.replace_request
           (Sample.request "GET" "/api/v1/projects/1" [("project_id", "1")]
              JUndefined None)
           Fixtures.two_projects Sample.alice 1 Sample.lamp _ _
           eq_refl eq_refl eq_refl eq_refl eq_refl eq_refl eq_refl eq_refl).
Defined.

Lemma guarded_routes_stop_at_auth_witness :
  UsersRouter.router String.eqb Fixtures.handlers
    (Fixtures.raw_request "GET" "/profile")
  = Done {| code := JNum 401; payload := JNull |} /\
  UsersRouter.router String.eqb Fixtures.handlers
    (Fixtures.raw_request "POST" "/status")
  = Done {| code := JNum 401; payload := JNull |}.
Proof.
  split.
  - apply (proj1 (guarded_routes_stop_at_auth String.eqb Fixtures.handlers
                    (Fixtures.raw_request "GET" "/profile")
                    ltac:(discriminate)));
      [now left|reflexivity].
  - apply (proj2 (guarded_routes_stop_at_auth String.eqb Fixtures.handlers
                    (Fixtures.raw_request "POST" "/status")
                    ltac:(discriminate))); reflexivity.
Defined.

Lemma open_routes_skip_auth_witness :
  UsersRouter.router String.eqb Fixtures.handlers
    (Fixtures.raw_request "POST" "/signup")
  = Done {| code := JNum 201; payload := JNull |} /\
  UsersRouter.router String.eqb Fixtures.handlers
    (Fixtures.raw_request "POST" "/signin")
  = Done {| code := JNum 200; payload := JNull |}.
Proof.
  split.
  - apply (proj1 (open_routes_skip_auth String.eqb Fixtures.handlers
                    (Fixtures.raw_request "POST" "/signup") eq_refl));
      [reflexivity|discriminate].
  - apply (proj2 (open_routes_skip_auth String.eqb Fixtures.handlers
                    (Fixtures.raw_request "POST" "/signin") eq_refl));
      [reflexivity|reflexivity|discriminate].
Defined.

Lemma unrouted_requests_pass_witness :
  UsersRouter.router String.eqb Fixtures.handlers
    (Fixtures.raw_request "DELETE" "/profile")
  = Next (Fixtures.raw_request "DELETE" "/profile") /\
  UsersRouter.router String.eqb Fixtures.handlers
    (Fixtures.raw_request "GET" "/nowhere")
  = Next (Fixtures.raw_request "GET" "/nowhere").
Proof.
  split.
  - apply (unrouted_requests_pass String.eqb Fixtures.handlers
             (Fixtures.raw_request "DELETE" "/profile") ltac:(discriminate)).
    left. repeat split; discriminate.
  - apply (unrouted_requests_pass String.eqb Fixtures.handlers
             (Fixtures.raw_request "GET" "/nowhere") ltac:(discriminate)).
    right. repeat split.
Defined.
